(** * A shallow embedding of the DAX / DynamoDB sample driver

    The repository holds two variants of one command-line tool:

    - [Part000]: the variant whose [main] validates the flags, builds one
      client with [initClient] and dispatches through a [switch];
    - [TryDax]: [try_dax.go], whose [main] calls [initializeOptions] and then
      dispatches through the [commandMap] table, every executor building its
      own client.

    The process is modelled by explicit state passing.  The state [Proc]
    records what the process has done that an observer can see: the requests
    it sent to the backend, the lines written to the two output streams and the
    number of times it read the clock.  Everything the program gets from the
    outside (the backend's answers, the sessions, the instance metadata, the
    clock) is an input of the model, gathered in [Env]. *)

From Stdlib Require Import ZArith DecimalString DecimalNat.
From stdpp Require Import gmap strings list fin_maps.

Local Open Scope Z_scope.
Local Open Scope string_scope.
Local Open Scope list_scope.

(** ** Values shared by the two variants *)

(** A Go [error] is represented by the text that [%v] prints for it. *)
Definition error : Type := string.

(** The pair [(value, error)] that Go functions return: [Err e] stands for a
    non-nil error, [Ok v] for a nil one. *)
Inductive result (A : Type) : Type :=
  | Ok (v : A)
  | Err (e : error).
Arguments Ok {A} v.
Arguments Err {A} e.

(** [dynamodb.AttributeValue], restricted to the two fields the tool sets. *)
Record AttributeValue := {
  av_S : option string;
  av_N : option string
}.

Definition attrS (s : string) : AttributeValue := {| av_S := Some s; av_N := None |}.
Definition attrN (s : string) : AttributeValue := {| av_S := None; av_N := Some s |}.

Record KeySchemaElement := {
  kse_AttributeName : string;
  kse_KeyType : string
}.

Record AttributeDefinition := {
  ad_AttributeName : string;
  ad_AttributeType : string
}.

Record ProvisionedThroughput := {
  ReadCapacityUnits : Z;
  WriteCapacityUnits : Z
}.

Record CreateTableInput := {
  ct_TableName : string;
  ct_KeySchema : list KeySchemaElement;
  ct_AttributeDefinitions : list AttributeDefinition;
  ct_ProvisionedThroughput : ProvisionedThroughput
}.

Record DeleteTableInput := { dt_TableName : string }.

Record PutItemInput := {
  pi_TableName : string;
  pi_Item : gmap string AttributeValue
}.

Record GetItemInput := {
  gi_TableName : string;
  gi_Key : gmap string AttributeValue
}.

Record QueryInput := {
  q_TableName : string;
  q_KeyConditionExpression : string;
  q_ExpressionAttributeValues : gmap string AttributeValue
}.

Record ScanInput := { sc_TableName : string }.

(** One constructor per method of the client interfaces. *)
Inductive Request :=
  | CreateTable (i : CreateTableInput)
  | DeleteTable (i : DeleteTableInput)
  | PutItem (i : PutItemInput)
  | GetItem (i : GetItemInput)
  | Query (i : QueryInput)
  | Scan (i : ScanInput).

(** The constants of the AWS SDK that the tool names. *)
Definition KeyTypeHash : string := "HASH".
Definition KeyTypeRange : string := "RANGE".
Definition ScalarAttributeTypeS : string := "S".
Definition ScalarAttributeTypeN : string := "N".

(** What a backend call hands back on success, as [%v] prints it. *)
Definition Output : Type := string.

(** A client answers a request knowing the requests it has already answered
    (oldest first); this covers every deterministic backend, in particular one
    that fails its n-th call. *)
Definition Client : Type := list Request -> Request -> result Output.

(** ** The process state *)

Inductive OutLine :=
  | Verbose (o : Output)
      (* "%v\n" of a call's output *)
  | Timing (total avg : Z).
      (* "Total Time: %v, Avg Time: %v\n", durations in nanoseconds *)

Record Proc := {
  issued : list Request;      (* requests sent so far, oldest first *)
  stdout : list OutLine;      (* os.Stdout, oldest line first *)
  stderr : list string;       (* os.Stderr, oldest write first *)
  clockReads : nat            (* how many times the clock was read *)
}.

Definition start : Proc :=
  {| issued := []; stdout := []; stderr := []; clockReads := 0 |}.

(** How a process ends: [os.Exit(code)] or a return from [main] (code 0), or
    a run-time panic. *)
Inductive Termination :=
  | Exit (code : Z)
  | Panic.

(** What the process is given from outside. *)
Record Env := {
  (* session.NewSession(&aws.Config{Region: r}); [None] is the empty Config *)
  newSession : option string -> option error;
  (* dynamodb.New(sess), for the session made for that region *)
  dynamodbNew : string -> Client;
  (* dax.New(cfg), by cfg.HostPorts[0] and cfg.Region *)
  daxNew : string -> string -> result Client;
  (* ec2metadata.New(sess).Region() *)
  mdRegion : result string;
  (* the k-th reading of the monotonic clock, in nanoseconds *)
  clock : nat -> Z
}.

(** The command line after [flag.Parse]: [None] for a flag that was not
    given.  A command line that [flag.Parse] refuses ends the process inside
    the flag package, before any of the code embedded here runs. *)
Record Args := {
  arg_service : option string;
  arg_region : option string;
  arg_endpoint : option string;
  arg_command : option string;
  arg_verbose : option bool
}.

(** The package-level flag variables.  [flag.String] and [flag.Bool] never
    return nil, so the pointers are modelled by the values they point to and
    the [== nil] tests of the source are always false. *)
Record Flags := {
  service : string;
  region : string;
  endpoint : string;
  command : string;
  verbose : bool
}.

(** ** A state and error monad for Go functions returning [error] *)

Definition M (A : Type) : Type := Proc -> Proc * result A.

Definition ret {A} (a : A) : M A := fun p => (p, Ok a).

(** Sequencing with the idiom [if err != nil { return err }]. *)
Definition bind {A B} (m : M A) (k : A -> M B) : M B :=
  fun p =>
    match m p with
    | (p', Ok a) => k a p'
    | (p', Err e) => (p', Err e)
    end.

Definition fail {A} (e : error) : M A := fun p => (p, Err e).

Declare Scope go_scope.
Delimit Scope go_scope with go.
Notation "x <- m ;; k" := (bind m (fun x => k))
  (at level 100, m at next level, right associativity) : go_scope.
Notation "m ;;; k" := (bind m (fun _ => k))
  (at level 100, right associativity) : go_scope.
Local Open Scope go_scope.

(** [client.Method(in)]: the request is logged and the client answers. *)
Definition call (client : Client) (r : Request) : M Output :=
  fun p =>
    ({| issued := issued p ++ [r]; stdout := stdout p; stderr := stderr p;
        clockReads := clockReads p |},
     client (issued p) r).

Definition writeStdout (l : OutLine) : M unit :=
  fun p =>
    ({| issued := issued p; stdout := stdout p ++ [l]; stderr := stderr p;
        clockReads := clockReads p |}, Ok tt).

Definition writeStderr (s : string) : M unit :=
  fun p =>
    ({| issued := issued p; stdout := stdout p; stderr := stderr p ++ [s];
        clockReads := clockReads p |}, Ok tt).

(** [time.Now()], keeping the monotonic reading only. *)
Definition now (env : Env) : M Z :=
  fun p =>
    ({| issued := issued p; stdout := stdout p; stderr := stderr p;
        clockReads := S (clockReads p) |}, Ok (clock env (clockReads p))).

(** [time.Since(st)].  Durations are kept as unbounded integers: the
    saturation of [time.Duration] at the ends of int64 is left out. *)
Definition since (env : Env) (st : Z) : M Z :=
  t <- now env ;; ret (t - st).

(** [for i := lo; i < lo + n; i++ { body }], left as soon as the body returns
    an error. *)
Fixpoint forRange (lo n : nat) (body : nat -> M unit) : M unit :=
  match n with
  | O => ret tt
  | S n' => body lo ;;; forRange (S lo) n' body
  end.

(** [%d] of a non-negative int *)
Definition itoa (n : nat) : string := NilZero.string_of_uint (Nat.to_uint n).

(** [strings.Join] *)
Fixpoint join (l : list string) (sep : string) : string :=
  match l with
  | [] => ""
  | [s] => s
  | s :: rest => s +:+ sep +:+ join rest sep
  end.

(** [contains], the same in the two files *)
Fixpoint contains (needle : string) (haystack : list string) : bool :=
  match haystack with
  | [] => false
  | v :: rest => if String.eqb needle v then true else contains needle rest
  end.

Definition nl : string := String (Ascii.ascii_of_nat 10) "".

Definition services : list string := ["dynamodb"; "dax"].

Definition table : string := "TryDaxGoTable".
Definition keyPrefix : string := "key".
Definition valPrefix : string := "val".
Definition pkMax : nat := 10.
Definition skMax : nat := 10.
Definition iterations : nat := 25.


(** ** The statements the two files share

    The bodies of the six executors are the same text in the two files, apart
    from the client: the first variant receives it as an argument, the second
    builds it in the executor's first lines.  The shared text is embedded once,
    with the client as an argument. *)

Definition writeVerbose (fl : Flags) (o : Output) : M unit :=
  if verbose fl then writeStdout (Verbose o) else ret tt.

Definition createTableInput : CreateTableInput :=
  {| ct_TableName := table;
     ct_KeySchema :=
       [ {| kse_AttributeName := "pk"; kse_KeyType := KeyTypeHash |};
         {| kse_AttributeName := "sk"; kse_KeyType := KeyTypeRange |} ];
     ct_AttributeDefinitions :=
       [ {| ad_AttributeName := "pk"; ad_AttributeType := ScalarAttributeTypeS |};
         {| ad_AttributeName := "sk"; ad_AttributeType := ScalarAttributeTypeN |} ];
     ct_ProvisionedThroughput :=
       {| ReadCapacityUnits := 100; WriteCapacityUnits := 100 |} |}.

Definition createTableBody (fl : Flags) (client : Client) : M unit :=
  out <- call client (CreateTable createTableInput) ;;
  writeVerbose fl out.

Definition deleteTableInput : DeleteTableInput := {| dt_TableName := table |}.

Definition deleteTableBody (fl : Flags) (client : Client) : M unit :=
  out <- call client (DeleteTable deleteTableInput) ;;
  writeVerbose fl out.

Definition putItemInput (i j : nat) : PutItemInput :=
  {| pi_TableName := table;
     pi_Item :=
       <["pk" := attrS (keyPrefix +:+ "_" +:+ itoa i)]>
       (<["sk" := attrN (itoa j)]>
       (<["value" := attrS (valPrefix +:+ "_" +:+ itoa i +:+ "_" +:+ itoa j)]> ∅)) |}.

Definition putItemBody (fl : Flags) (client : Client) : M unit :=
  forRange 0 pkMax (fun i =>
    forRange 0 skMax (fun j =>
      out <- call client (PutItem (putItemInput i j)) ;;
      writeVerbose fl out)).

Definition getItemInput (i j : nat) : GetItemInput :=
  {| gi_TableName := table;
     gi_Key :=
       <["pk" := attrS (keyPrefix +:+ "_" +:+ itoa i)]>
       (<["sk" := attrN (itoa j)]> ∅) |}.

(** [d / iterations] on [time.Duration], an int64: the quotient truncates
    towards zero. *)
Definition timingLine (d : Z) : OutLine := Timing d (Z.quot d (Z.of_nat iterations)).

Definition getItemBody (env : Env) (fl : Flags) (client : Client) : M unit :=
  st <- now env ;;
  (forRange 0 iterations (fun c =>
    forRange 0 pkMax (fun i =>
      forRange 0 skMax (fun j =>
        out <- call client (GetItem (getItemInput i j)) ;;
        writeVerbose fl out))) ;;;
  d <- since env st ;;
  writeStdout (timingLine d)).

Definition queryInput : QueryInput :=
  {| q_TableName := table;
     q_KeyConditionExpression := "pk = :pkval and sk between :skval1 and :skval2";
     q_ExpressionAttributeValues :=
       <[":pkval" := attrS (keyPrefix +:+ "_" +:+ itoa 5)]>
       (<[":skval1" := attrN (itoa 2)]>
       (<[":skval2" := attrN (itoa 9)]> ∅)) |}.

Definition queryBody (env : Env) (fl : Flags) (client : Client) : M unit :=
  st <- now env ;;
  (forRange 0 iterations (fun c =>
    out <- call client (Query queryInput) ;;
    writeVerbose fl out) ;;;
  d <- since env st ;;
  writeStdout (timingLine d)).

Definition scanInput : ScanInput := {| sc_TableName := table |}.

Definition scanBody (env : Env) (fl : Flags) (client : Client) : M unit :=
  st <- now env ;;
  (forRange 0 iterations (fun c =>
    out <- call client (Scan scanInput) ;;
    writeVerbose fl out) ;;;
  d <- since env st ;;
  writeStdout (timingLine d)).

(** [ddbClient] and [daxClient] are the same in the two files too. *)
Definition ddbClient (env : Env) (region : string) : result Client :=
  match newSession env (Some region) with
  | Some err => Err err
  | None => Ok (dynamodbNew env region)
  end.

Definition daxClient (env : Env) (endpoint region : string) : result Client :=
  daxNew env endpoint region.

Definition err_service : error :=
  "service should be one of [" +:+ join services " | " +:+ "]".
Definition err_endpoint : error := "endpoint should be set for 'dax' service".

(** ** The first variant: one client, dispatch by [switch] *)

Module Part000.

Definition commands : list string :=
  ["create-table"; "put-item"; "get-item"; "query"; "scan"; "delete-table"].

(** The flag definitions with their defaults. *)
Definition parseFlags (a : Args) : Flags :=
  {| service := default "dynamodb" (arg_service a);
     region := default "us-west-2" (arg_region a);
     endpoint := default "" (arg_endpoint a);
     command := default "" (arg_command a);
     verbose := default false (arg_verbose a) |}.

Definition err_command : error :=
  "command should be one of [" +:+ join commands " | " +:+ "]".
Definition err_tableop : error :=
  "service 'dax' does not support table operations, use service 'dynamodb'".

Definition validate (fl : Flags) : option error :=
  if negb (contains (service fl) services) then Some err_service
  else if negb (contains (command fl) commands) then Some err_command
  else if String.eqb (service fl) "dax" then
    if Nat.eqb (String.length (endpoint fl)) 0 then Some err_endpoint
    else if String.eqb (command fl) "create-table"
            || String.eqb (command fl) "delete-table"
    then Some err_tableop
    else None
  else None.

Definition initClient (env : Env) (fl : Flags) : result Client :=
  if String.eqb (service fl) "dax"
  then daxClient env (endpoint fl) (region fl)
  else ddbClient env (region fl).

Definition executeCreateTable (fl : Flags) (client : Client) : M unit :=
  createTableBody fl client.
Definition executePutItem (fl : Flags) (client : Client) : M unit :=
  putItemBody fl client.
Definition executeGetItem (env : Env) (fl : Flags) (client : Client) : M unit :=
  getItemBody env fl client.
Definition executeQuery (env : Env) (fl : Flags) (client : Client) : M unit :=
  queryBody env fl client.
Definition executeScan (env : Env) (fl : Flags) (client : Client) : M unit :=
  scanBody env fl client.
Definition executeDeleteTable (fl : Flags) (client : Client) : M unit :=
  deleteTableBody fl client.

Definition executeCommand (env : Env) (fl : Flags) (client : Client) : M unit :=
  if String.eqb (command fl) "create-table" then executeCreateTable fl client
  else if String.eqb (command fl) "put-item" then executePutItem fl client
  else if String.eqb (command fl) "get-item" then executeGetItem env fl client
  else if String.eqb (command fl) "query" then executeQuery env fl client
  else if String.eqb (command fl) "scan" then executeScan env fl client
  else if String.eqb (command fl) "delete-table" then executeDeleteTable fl client
  else fail ("unknown command " +:+ command fl).

(** [main] never calls [os.Exit]: on each of its paths it returns, and the
    process ends with status 0. *)
Definition main (args : Args) (env : Env) : Proc * Termination :=
  let fl := parseFlags args in
  match validate fl with
  | Some err =>
      (fst (writeStderr ("invalid input: " +:+ err +:+ nl) start), Exit 0)
  | None =>
      match initClient env fl with
      | Err err =>
          (fst (writeStderr ("failed to init client: " +:+ err +:+ nl) start), Exit 0)
      | Ok client =>
          match executeCommand env fl client start with
          | (p, Err err) =>
              (fst (writeStderr ("failed to execute command: " +:+ err +:+ nl) p),
               Exit 0)
          | (p, Ok _) => (p, Exit 0)
          end
      end
  end.

End Part000.

(** ** The second variant, [try_dax.go]: dispatch by table *)

Module TryDax.

(** [func() error], with the globals it reads made explicit. *)
Definition Executor : Type := Env -> Flags -> M unit.

Definition err_tableclient : error := "for table operations use service 'dynamodb'".

Definition initTableClient (env : Env) (fl : Flags) : result Client :=
  if String.eqb (service fl) "dax" then Err err_tableclient
  else ddbClient env (region fl).

Definition initItemClient (env : Env) (fl : Flags) : result Client :=
  if String.eqb (service fl) "dax"
  then daxClient env (endpoint fl) (region fl)
  else ddbClient env (region fl).

Definition executeCreateTable : Executor := fun env fl =>
  match initTableClient env fl with
  | Err err => fail err
  | Ok client => createTableBody fl client
  end.

Definition executeDeleteTable : Executor := fun env fl =>
  match initTableClient env fl with
  | Err err => fail err
  | Ok client => deleteTableBody fl client
  end.

(** The four item executors start with the same lines. *)
Definition withItemClient (env : Env) (fl : Flags) (body : Client -> M unit) : M unit :=
  match initItemClient env fl with
  | Err err =>
      writeStderr ("failed to initialize client: " +:+ err +:+ nl) ;;; fail err
  | Ok client => body client
  end.

Definition executePutItem : Executor := fun env fl =>
  withItemClient env fl (putItemBody fl).
Definition executeGetItem : Executor := fun env fl =>
  withItemClient env fl (getItemBody env fl).
Definition executeQuery : Executor := fun env fl =>
  withItemClient env fl (queryBody env fl).
Definition executeScan : Executor := fun env fl =>
  withItemClient env fl (scanBody env fl).

Definition commandMap : gmap string Executor :=
  <["create-table" := executeCreateTable]>
  (<["delete-table" := executeDeleteTable]>
  (<["put-item" := executePutItem]>
  (<["get-item" := executeGetItem]>
  (<["query" := executeQuery]>
  (<["scan" := executeScan]> ∅))))).

(** [listOfKeys].  Go leaves the order of [for key := range m] to the
    runtime: [order] is the order in which this run of the process meets the
    keys.  The slice has [len(m)] cells and the i-th key met is stored in
    cell i. *)
Definition listOfKeys (order : list string) (m : gmap string Executor) : list string :=
  fst (foldl (fun (acc : list string * nat) key =>
                (<[snd acc := key]> (fst acc), S (snd acc)))
             (replicate (size m) "", O) order).

Definition commandsMsg (order : list string) : string :=
  join (listOfKeys order commandMap) " | ".

Definition err_command (order : list string) : error :=
  "command should be one of [" +:+ commandsMsg order +:+ "]".

(** The flag definitions; the default of [region] is the detected region. *)
Definition parseFlags (a : Args) (detectedRegion : string) : Flags :=
  {| service := default "dynamodb" (arg_service a);
     region := default detectedRegion (arg_region a);
     endpoint := default "" (arg_endpoint a);
     command := default "" (arg_command a);
     verbose := default false (arg_verbose a) |}.

Definition validate (order : list string) (fl : Flags) : option error :=
  if negb (contains (service fl) services) then Some err_service
  else match commandMap !! command fl with
  | None => Some (err_command order)
  | Some _ =>
      if String.eqb (service fl) "dax" then
        if Nat.eqb (String.length (endpoint fl)) 0 then Some err_endpoint
        else None
      else None
  end.

Definition initializeOptions (order : list string) (args : Args) (env : Env) : M Flags :=
  match newSession env None with
  | Some err => writeStderr (err +:+ nl) ;;; fail err
  | None =>
      match mdRegion env with
      | Err err =>
          writeStderr ("Unable to detect region: " +:+ err +:+ nl) ;;; fail err
      | Ok detectedRegion =>
          let fl := parseFlags args detectedRegion in
          match validate order fl with
          | Some err =>
              writeStderr ("invalid input: " +:+ err +:+ nl) ;;; fail err
          | None => ret fl
          end
      end
  end.

(** The call [f()] of a function value of the table. *)
Definition invoke (exec : Executor) (env : Env) (fl : Flags) : M unit := exec env fl.

(** Calling the nil function that a missing key yields panics. *)
Definition main (order : list string) (args : Args) (env : Env) : Proc * Termination :=
  match initializeOptions order args env start with
  | (p, Err _) => (p, Exit 1)
  | (p, Ok fl) =>
      match commandMap !! command fl with
      | None => (p, Panic)
      | Some exec =>
          match invoke exec env fl p with
          | (p', Err err) =>
              (fst (writeStderr ("failed to execute command: " +:+ err +:+ nl) p'),
               Exit 1)
          | (p', Ok _) => (p', Exit 0)
          end
      end
  end.

End TryDax.

(** * The vocabulary of the statements *)

(** ** The loops, request by request *)

(** One turn of every loop: send the request, leave on error, print the
    output when asked to. *)
Definition callOne (fl : Flags) (client : Client) (r : Request) : M unit :=
  out <- call client r ;;
  writeVerbose fl out.

Fixpoint callEach (fl : Flags) (client : Client) (reqs : list Request) : M unit :=
  match reqs with
  | [] => ret tt
  | r :: rest => callOne fl client r ;;; callEach fl client rest
  end.

(** The requests of the four loops, in the order of the iteration. *)
Definition putItemRequests : list Request :=
  i ← seq 0 pkMax; j ← seq 0 skMax; [PutItem (putItemInput i j)].

Definition getItemRequests : list Request :=
  c ← seq 0 iterations; i ← seq 0 pkMax; j ← seq 0 skMax;
  [GetItem (getItemInput i j)].

(** One pass over the 100 keys. *)
Definition getItemGrid : list Request :=
  i ← seq 0 pkMax; j ← seq 0 skMax; [GetItem (getItemInput i j)].

Definition queryRequests : list Request := replicate iterations (Query queryInput).

Definition scanRequests : list Request := replicate iterations (Scan scanInput).

(** What the client answers to the k-th request (from 0) of [reqs], when the
    requests before it have been sent in order. *)
Definition answer (client : Client) (reqs : list Request) (k : nat)
  : option (result Output) :=
  match reqs !! k with
  | Some r => Some (client (take k reqs) r)
  | None => None
  end.

(** All the calls of the client succeed. *)
Definition AllSucceed (client : Client) : Prop :=
  forall h r, exists out, client h r = Ok out.

(** In the run over [reqs], the n-th call (from 1) returns the error [e]; the
    n-th call takes place, so the calls before it have returned no error. *)
Definition NthCallFails (client : Client) (reqs : list Request) (n : nat) (e : error)
  : Prop :=
  (1 <= n)%nat /\
  (forall k, (k < n - 1)%nat -> exists out, answer client reqs k = Some (Ok out)) /\
  answer client reqs (n - 1) = Some (Err e).

(** The part of the state that the calls leave alone. *)
Definition sameStreams (p p' : Proc) : Prop :=
  stderr p' = stderr p /\ clockReads p' = clockReads p.

(** The four executors that loop, their requests and their shared text. *)
Inductive Loop := LoopPutItem | LoopGetItem | LoopQuery | LoopScan.

Definition loopRequests (l : Loop) : list Request :=
  match l with
  | LoopPutItem => putItemRequests
  | LoopGetItem => getItemRequests
  | LoopQuery => queryRequests
  | LoopScan => scanRequests
  end.

Definition loopBody (l : Loop) (env : Env) (fl : Flags) (client : Client) : M unit :=
  match l with
  | LoopPutItem => putItemBody fl client
  | LoopGetItem => getItemBody env fl client
  | LoopQuery => queryBody env fl client
  | LoopScan => scanBody env fl client
  end.

Definition executorPart000 (l : Loop) (env : Env) (fl : Flags) (client : Client)
  : M unit :=
  match l with
  | LoopPutItem => Part000.executePutItem fl client
  | LoopGetItem => Part000.executeGetItem env fl client
  | LoopQuery => Part000.executeQuery env fl client
  | LoopScan => Part000.executeScan env fl client
  end.

Definition executorTryDax (l : Loop) : TryDax.Executor :=
  match l with
  | LoopPutItem => TryDax.executePutItem
  | LoopGetItem => TryDax.executeGetItem
  | LoopQuery => TryDax.executeQuery
  | LoopScan => TryDax.executeScan
  end.

(** The shape of the three timed executors. *)
Definition timed (env : Env) (loop : M unit) : M unit :=
  st <- now env ;;
  (loop ;;;
  d <- since env st ;;
  writeStdout (timingLine d)).

(** The clock never runs backwards, as Go's monotonic clock. *)
Definition Monotonic (env : Env) : Prop :=
  forall k, clock env k <= clock env (S k).

(** The same flags with another endpoint. *)
Definition withEndpoint (ep : string) (fl : Flags) : Flags :=
  {| service := service fl; region := region fl; endpoint := ep;
     command := command fl; verbose := verbose fl |}.

(** A process that has only written to the error stream. *)
Definition stderrOnly (lines : list string) : Proc :=
  {| issued := []; stdout := []; stderr := lines; clockReads := 0 |}.

(** ** Sample inputs *)

Definition okClient : Client := fun _ _ => Ok "ok".

(** The simulated backend that fails its n-th call (from 1). *)
Definition failNth (n : nat) (e : error) : Client :=
  fun h _ => if Nat.eqb (length h) (n - 1) then Err e else Ok "ok".

Definition failing37 : Client := failNth 37 "backend down".

Definition sampleEnv (c : Client) : Env :=
  {| newSession := fun _ => None;
     dynamodbNew := fun _ => c;
     daxNew := fun _ _ => Ok c;
     mdRegion := Ok "us-east-1";
     clock := fun k => 1000 * Z.of_nat k |}.

Definition sampleArgs (svc cmd ep : string) : Args :=
  {| arg_service := Some svc; arg_region := None; arg_endpoint := Some ep;
     arg_command := Some cmd; arg_verbose := None |}.

(** The order in which the examples range over [commandMap]. *)
Definition sampleOrder : list string :=
  ["scan"; "create-table"; "query"; "put-item"; "delete-table"; "get-item"].

Definition sampleFlags (svc cmd ep : string) : Flags :=
  {| service := svc; region := "us-east-1"; endpoint := ep; command := cmd;
     verbose := false |}.

(** ** Vocabulary of the further properties *)

(** The table a request addresses. *)
Definition tableOf (r : Request) : string :=
  match r with
  | CreateTable i => ct_TableName i
  | DeleteTable i => dt_TableName i
  | PutItem i => pi_TableName i
  | GetItem i => gi_TableName i
  | Query i => q_TableName i
  | Scan i => sc_TableName i
  end.

(** The outputs the client hands back along the run over [reqs] that starts
    after the requests [h], up to its first error. *)
Fixpoint outputs (client : Client) (h reqs : list Request) : list Output :=
  match reqs with
  | [] => []
  | r :: rest =>
      match client h r with
      | Ok out => out :: outputs client (h ++ [r]) rest
      | Err _ => []
      end
  end.

(** The lines that the calls of a run print: one per successful call when
    the verbose flag is set, none otherwise. *)
Definition verboseLines (fl : Flags) (client : Client) (h reqs : list Request)
  : list OutLine :=
  if verbose fl then Verbose <$> outputs client h reqs else [].

(** The two ways a loop can end, from the start of a process: every call
    succeeded and the whole sequence was sent; or the n-th call was the first
    to fail, its error is the result and the first n requests were sent. *)
Definition LoopOutcome (client : Client) (reqs : list Request)
  (run : Proc * result unit) : Prop :=
  (snd run = Ok tt /\ issued (fst run) = reqs
   /\ forall k, (k < length reqs)%nat ->
         exists out, answer client reqs k = Some (Ok out))
  \/ (exists n e, snd run = Err e /\ NthCallFails client reqs n e
                  /\ issued (fst run) = take n reqs).

(** The executors that print the timing line. *)
Definition isTimed (l : Loop) : bool :=
  match l with LoopPutItem => false | _ => true end.

(** What a looping executor started at the start of a process has printed:
    the lines of its successful calls, then, when it is a timed executor
    that returns nil, the timing line for the time between its two readings
    of the clock; and there are as many outputs as calls that succeeded. *)
Definition RunPrints (env : Env) (fl : Flags) (client : Client) (l : Loop)
  (run : Proc * result unit) : Prop :=
  stdout (fst run)
  = verboseLines fl client [] (loopRequests l)
    ++ match snd run with
       | Ok _ => if isTimed l then [timingLine (clock env 1 - clock env 0)] else []
       | Err _ => []
       end
  /\ length (outputs client [] (loopRequests l))
     = match snd run with
       | Ok _ => length (issued (fst run))
       | Err _ => pred (length (issued (fst run)))
       end.

(** Reading back what [%d] printed. *)
Definition atoi (s : string) : option nat :=
  option_map Nat.of_uint (NilZero.uint_of_string s).

(** The primary key of an item: its pk and sk attributes. *)
Definition primaryKey (item : gmap string AttributeValue)
  : option AttributeValue * option AttributeValue :=
  (item !! "pk", item !! "sk").

(** The run of an executor that makes one call from the start of a process:
    the request is sent once; the output is printed when the call succeeds
    and the verbose flag is set; the result is the error of the call, or
    nil. *)
Definition oneCallRun (fl : Flags) (client : Client) (r : Request)
  : Proc * result unit :=
  match client [] r with
  | Ok out =>
      ({| issued := [r]; stdout := if verbose fl then [Verbose out] else [];
          stderr := []; clockReads := 0 |}, Ok tt)
  | Err e =>
      ({| issued := [r]; stdout := []; stderr := []; clockReads := 0 |}, Err e)
  end.

(** The two table commands. *)
Definition isTableCommand (cmd : string) : bool :=
  String.eqb cmd "create-table" || String.eqb cmd "delete-table".

(** A client that answers every call with the same error. *)
Definition downClient (e : error) : Client := fun _ _ => Err e.

(** Command lines that leave flags out. *)
Definition noArgs : Args :=
  {| arg_service := None; arg_region := None; arg_endpoint := None;
     arg_command := None; arg_verbose := None |}.

Definition onlyCommand (cmd : string) : Args :=
  {| arg_service := None; arg_region := None; arg_endpoint := None;
     arg_command := Some cmd; arg_verbose := None |}.

Definition daxWithoutEndpoint (cmd : string) : Args :=
  {| arg_service := Some "dax"; arg_region := None; arg_endpoint := None;
     arg_command := Some cmd; arg_verbose := None |}.


(** An environment in which no session can be made. *)
Definition noSessionEnv (e : error) : Env :=
  {| newSession := fun _ => Some e;
     dynamodbNew := fun _ => okClient;
     daxNew := fun _ _ => Err e;
     mdRegion := Ok "us-east-1";
     clock := fun k => 1000 * Z.of_nat k |}.

(** An environment outside EC2: the instance metadata does not answer. *)
Definition noMetadataEnv (e : error) : Env :=
  {| newSession := fun _ => None;
     dynamodbNew := fun _ => okClient;
     daxNew := fun _ _ => Ok okClient;
     mdRegion := Err e;
     clock := fun k => 1000 * Z.of_nat k |}.

(** * Properties *)

Example itoa_examples : itoa 0 = "0" /\ itoa 7 = "7" /\ itoa 25 = "25".
Proof. repeat split; reflexivity. Qed.

Example join_services : join services " | " = "dynamodb | dax".
Proof. reflexivity. Qed.

Section Loops.

Variables (fl : Flags) (client : Client).

Lemma bind_ok {A B} (m : M A) (k : A -> M B) p p' a :
  m p = (p', Ok a) -> bind m k p = k a p'.
Proof. intros H. unfold bind. now rewrite H. Qed.

Lemma bind_err {A B} (m : M A) (k : A -> M B) p p' e :
  m p = (p', Err e) -> bind m k p = (p', Err e).
Proof. intros H. unfold bind. now rewrite H. Qed.

Lemma forRange_ext (b1 b2 : nat -> M unit) :
  (forall i p, b1 i p = b2 i p) ->
  forall n lo p, forRange lo n b1 p = forRange lo n b2 p.
Proof.
  intros Hb. induction n as [|n IH]; intros lo p; simpl; [reflexivity|].
  unfold bind. rewrite Hb. destruct (b2 lo p) as [p' [[]|e]]; auto.
Qed.

Lemma callEach_app (l1 l2 : list Request) p :
  callEach fl client (l1 ++ l2) p
  = bind (callEach fl client l1) (fun _ => callEach fl client l2) p.
Proof.
  revert p. induction l1 as [|r l1 IH]; intros p; simpl; [reflexivity|].
  unfold bind.
  destruct (callOne fl client r p) as [p' [[]|e]]; [|reflexivity].
  rewrite IH. reflexivity.
Qed.

(** A counted loop whose body is a run of calls is the run of calls over the
    concatenation. *)
Lemma forRange_callEach (g : nat -> list Request) n :
  forall lo p,
    forRange lo n (fun i => callEach fl client (g i)) p
    = callEach fl client (i ← seq lo n; g i) p.
Proof.
  induction n as [|n IH]; intros lo p; simpl; [reflexivity|].
  rewrite callEach_app. unfold bind.
  destruct (callEach fl client (g lo) p) as [p' [[]|e]]; [apply IH | reflexivity].
Qed.

Lemma callOne_callEach r p :
  callOne fl client r p = callEach fl client [r] p.
Proof.
  simpl. unfold bind at 1.
  destruct (callOne fl client r p) as [p' [[]|e]]; reflexivity.
Qed.

Lemma putItemBody_callEach p :
  putItemBody fl client p = callEach fl client putItemRequests p.
Proof.
  unfold putItemBody, putItemRequests.
  rewrite <- forRange_callEach. apply forRange_ext. intros i q.
  rewrite <- forRange_callEach. apply forRange_ext. intros j q'.
  apply callOne_callEach.
Qed.

Lemma getItemLoop_callEach p :
  forRange 0 iterations (fun c =>
    forRange 0 pkMax (fun i =>
      forRange 0 skMax (fun j =>
        out <- call client (GetItem (getItemInput i j)) ;;
        writeVerbose fl out))) p
  = callEach fl client getItemRequests p.
Proof.
  unfold getItemRequests.
  rewrite <- forRange_callEach. apply forRange_ext. intros c q.
  rewrite <- forRange_callEach. apply forRange_ext. intros i q'.
  rewrite <- forRange_callEach. apply forRange_ext. intros j q''.
  apply callOne_callEach.
Qed.

Lemma forRange_const (r : Request) n :
  forall lo p,
    forRange lo n (fun _ => out <- call client r ;; writeVerbose fl out) p
    = callEach fl client (replicate n r) p.
Proof.
  induction n as [|n IH]; intros lo p; simpl; [reflexivity|].
  unfold callOne, bind. 
  destruct (call client r p) as [q [out|e]]; [|reflexivity].
  destruct (writeVerbose fl out q) as [q' [[]|e]]; [apply IH | reflexivity].
Qed.

End Loops.

(** ** What a run of calls does *)

Section Runs.

Variables (fl : Flags) (client : Client).

Lemma callOne_ok r p out :
  client (issued p) r = Ok out ->
  exists p', callOne fl client r p = (p', Ok tt)
             /\ issued p' = issued p ++ [r] /\ sameStreams p p'.
Proof.
  intros H. unfold callOne, bind, call, writeVerbose. rewrite H.
  destruct (verbose fl); eexists; (split; [reflexivity|]); repeat split.
Qed.

Lemma callOne_err r p e :
  client (issued p) r = Err e ->
  exists p', callOne fl client r p = (p', Err e)
             /\ issued p' = issued p ++ [r] /\ sameStreams p p'.
Proof.
  intros H. unfold callOne, bind, call. rewrite H.
  eexists; (split; [reflexivity|]); repeat split.
Qed.

Lemma callEach_ok reqs :
  forall p,
    (forall k r, reqs !! k = Some r ->
                 exists out, client (issued p ++ take k reqs) r = Ok out) ->
    exists p', callEach fl client reqs p = (p', Ok tt)
               /\ issued p' = issued p ++ reqs /\ sameStreams p p'.
Proof.
  induction reqs as [|r reqs IH]; intros p Hok; simpl.
  - exists p. rewrite app_nil_r. repeat split.
  - destruct (Hok O r eq_refl) as [out Hout]. simpl in Hout. rewrite app_nil_r in Hout.
    destruct (callOne_ok r p out Hout) as (p1 & Hrun & Hiss & Herr & Hclk).
    rewrite (bind_ok _ _ _ _ _ Hrun).
    destruct (IH p1) as (p' & Hrun' & Hiss' & Herr' & Hclk').
    + intros k r' Hk. rewrite Hiss, <- app_assoc. apply (Hok (S k) r' Hk).
    + exists p'. split; [exact Hrun'|]. rewrite Hiss', Hiss, <- app_assoc.
      repeat split; congruence.
Qed.

Lemma callEach_err reqs :
  forall n p r e,
    reqs !! n = Some r ->
    (forall k r', (k < n)%nat -> reqs !! k = Some r' ->
                  exists out, client (issued p ++ take k reqs) r' = Ok out) ->
    client (issued p ++ take n reqs) r = Err e ->
    exists p', callEach fl client reqs p = (p', Err e)
               /\ issued p' = issued p ++ take (S n) reqs /\ sameStreams p p'.
Proof.
  induction reqs as [|r0 reqs IH]; intros n p r e Hn Hok Herr; [discriminate|].
  destruct n as [|n]; simpl in *.
  - injection Hn as ->. rewrite app_nil_r in Herr.
    destruct (callOne_err r p e Herr) as (p1 & Hrun & Hiss & Hs).
    rewrite (bind_err _ _ _ _ _ Hrun). exists p1. rewrite take_0. auto.
  - destruct (Hok O r0 ltac:(lia) eq_refl) as [out Hout].
    simpl in Hout. rewrite app_nil_r in Hout.
    destruct (callOne_ok r0 p out Hout) as (p1 & Hrun & Hiss & Herr1 & Hclk1).
    rewrite (bind_ok _ _ _ _ _ Hrun).
    destruct (IH n p1 r e Hn) as (p' & Hrun' & Hiss' & Herr' & Hclk').
    + intros k r' Hk Hr'. rewrite Hiss, <- app_assoc.
      apply (Hok (S k) r' ltac:(lia) Hr').
    + rewrite Hiss, <- app_assoc. exact Herr.
    + exists p'. split; [exact Hrun'|]. rewrite Hiss', Hiss, <- app_assoc.
      repeat split; congruence.
Qed.

(** From the start of a process. *)
Lemma callEach_all_succeed reqs p :
  AllSucceed client ->
  exists p', callEach fl client reqs p = (p', Ok tt)
             /\ issued p' = issued p ++ reqs /\ sameStreams p p'.
Proof. intros H. apply callEach_ok. intros k r _. apply H. Qed.

Lemma callEach_nth_fails reqs n e p :
  issued p = [] ->
  NthCallFails client reqs n e ->
  exists p', callEach fl client reqs p = (p', Err e)
             /\ issued p' = take n reqs /\ length (issued p') = n
             /\ sameStreams p p'.
Proof.
  intros Hp (Hn & Hbefore & Hat). unfold answer in *.
  destruct (reqs !! (n - 1)%nat) as [r|] eqn:Hr; [|discriminate].
  injection Hat as Hat.
  destruct (callEach_err reqs (n - 1) p r e Hr) as (p' & Hrun & Hiss & Hs).
  - intros k r' Hk Hr'. rewrite Hp. simpl.
    destruct (Hbefore k Hk) as [out Hout]. rewrite Hr' in Hout.
    exists out. congruence.
  - rewrite Hp. exact Hat.
  - exists p'. split; [exact Hrun|].
    replace (S (n - 1)) with n in Hiss by lia. rewrite Hp in Hiss. simpl in Hiss.
    split; [exact Hiss|]. split; [|exact Hs].
    rewrite Hiss, length_take. apply lookup_lt_Some in Hr. lia.
Qed.

End Runs.

(** ** The four loops as runs of calls *)

Section Bodies.

Variables (env : Env) (fl : Flags) (client : Client).

Lemma timed_ok (loop : M unit) reqs p :
  (forall q, loop q = callEach fl client reqs q) ->
  AllSucceed client ->
  exists p', timed env loop p = (p', Ok tt)
    /\ issued p' = issued p ++ reqs
    /\ stderr p' = stderr p
    /\ last (stdout p')
       = Some (timingLine (clock env (S (clockReads p)) - clock env (clockReads p))).
Proof.
  intros Hloop Hok. unfold timed.
  rewrite (bind_ok _ _ p _ _ eq_refl).
  match goal with |- context [bind loop _ ?q] => set (p0 := q) end.
  destruct (callEach_all_succeed fl client reqs p0 Hok)
    as (p1 & Hrun & Hiss & Herr & Hclk).
  rewrite <- Hloop in Hrun. rewrite (bind_ok _ _ p0 _ _ Hrun).
  unfold since, bind, now, ret, writeStdout. eexists. split; [reflexivity|].
  simpl. rewrite Hiss, Herr, Hclk, last_snoc. subst p0. simpl. auto.
Qed.

Lemma timed_err (loop : M unit) reqs n e p :
  (forall q, loop q = callEach fl client reqs q) ->
  issued p = [] ->
  NthCallFails client reqs n e ->
  exists p', timed env loop p = (p', Err e)
    /\ issued p' = take n reqs /\ length (issued p') = n
    /\ stderr p' = stderr p.
Proof.
  intros Hloop Hp Hfail. unfold timed.
  rewrite (bind_ok _ _ p _ _ eq_refl).
  match goal with |- context [bind loop _ ?q] => set (p0 := q) end.
  destruct (callEach_nth_fails fl client reqs n e p0 Hp Hfail)
    as (p1 & Hrun & Hiss & Hlen & Herr & Hclk).
  rewrite <- Hloop in Hrun. rewrite (bind_err _ _ p0 _ _ Hrun).
  exists p1. auto.
Qed.

Lemma loopBody_timed_or_plain (l : Loop) :
  exists loop,
    (forall q, loop q = callEach fl client (loopRequests l) q)
    /\ (loopBody l env fl client = loop \/ loopBody l env fl client = timed env loop).
Proof.
  destruct l; unfold loopBody, loopRequests.
  - exists (putItemBody fl client). split; [apply putItemBody_callEach | auto].
  - eexists. split; [apply getItemLoop_callEach | right; reflexivity].
  - exists (forRange 0 iterations (fun _ =>
              out <- call client (Query queryInput) ;; writeVerbose fl out)).
    split; [apply forRange_const | right; reflexivity].
  - exists (forRange 0 iterations (fun _ =>
              out <- call client (Scan scanInput) ;; writeVerbose fl out)).
    split; [apply forRange_const | right; reflexivity].
Qed.

(** Every loop, on a client that never fails, sends its whole list of
    requests and returns nil. *)
Lemma loopBody_ok (l : Loop) p :
  AllSucceed client ->
  exists p', loopBody l env fl client p = (p', Ok tt)
    /\ issued p' = issued p ++ loopRequests l
    /\ stderr p' = stderr p.
Proof.
  intros Hok. destruct (loopBody_timed_or_plain l) as (loop & Hloop & [-> | ->]).
  - destruct (callEach_all_succeed fl client (loopRequests l) p Hok)
      as (p' & Hrun & Hiss & Herr & _).
    exists p'. rewrite Hloop. auto.
  - destruct (timed_ok loop _ p Hloop Hok) as (p' & Hrun & Hiss & Herr & _).
    exists p'. auto.
Qed.

(** Every loop stops at the first call that fails and returns its error. *)
Lemma loopBody_err (l : Loop) n e p :
  issued p = [] ->
  NthCallFails client (loopRequests l) n e ->
  exists p', loopBody l env fl client p = (p', Err e)
    /\ issued p' = take n (loopRequests l) /\ length (issued p') = n
    /\ stderr p' = stderr p.
Proof.
  intros Hp Hfail.
  destruct (loopBody_timed_or_plain l) as (loop & Hloop & [-> | ->]).
  - destruct (callEach_nth_fails fl client _ n e p Hp Hfail)
      as (p' & Hrun & Hiss & Hlen & Herr & _).
    exists p'. rewrite Hloop. auto.
  - apply timed_err; assumption.
Qed.

End Bodies.

(** The simulated backend [failNth n e] does fail its n-th call. *)
Lemma failNth_fails reqs n e :
  (1 <= n <= length reqs)%nat -> NthCallFails (failNth n e) reqs n e.
Proof.
  intros [H1 H2]. split; [exact H1|]. unfold answer, failNth. split.
  - intros k Hk. destruct (lookup_lt_is_Some_2 reqs k ltac:(lia)) as [r ->].
    exists "ok". rewrite length_take.
    destruct (Nat.eqb_spec (k `min` length reqs) (n - 1)); [lia | reflexivity].
  - destruct (lookup_lt_is_Some_2 reqs (n - 1) ltac:(lia)) as [r ->].
    rewrite length_take.
    destruct (Nat.eqb_spec ((n - 1) `min` length reqs) (n - 1)); [reflexivity | lia].
Qed.

Lemma okClient_succeeds : AllSucceed okClient.
Proof. intros h r. exists "ok". reflexivity. Qed.

(** ** The executors of the two files and the shared loops *)

Lemma executorPart000_body l env fl client :
  executorPart000 l env fl client = loopBody l env fl client.
Proof. destruct l; reflexivity. Qed.

Lemma executorTryDax_body l env fl client :
  TryDax.initItemClient env fl = Ok client ->
  executorTryDax l env fl = loopBody l env fl client.
Proof.
  intros H. destruct l; simpl;
    unfold TryDax.executePutItem, TryDax.executeGetItem, TryDax.executeQuery,
      TryDax.executeScan, TryDax.withItemClient; rewrite H; reflexivity.
Qed.

Lemma length_bind_seq {A} (g : nat -> list A) m n :
  (forall i, length (g i) = m) ->
  forall lo, length (i ← seq lo n; g i) = (n * m)%nat.
Proof.
  intros Hg. induction n as [|n IH]; intros lo; simpl; [reflexivity|].
  rewrite length_app, Hg, IH. reflexivity.
Qed.

Lemma loopRequests_length l :
  length (loopRequests l)
  = match l with
    | LoopPutItem => 100 | LoopGetItem => 2500 | LoopQuery => 25 | LoopScan => 25
    end%nat.
Proof.
  destruct l; unfold loopRequests, putItemRequests, getItemRequests,
    queryRequests, scanRequests; try apply length_replicate.
  - apply (length_bind_seq _ 10). intros i.
    apply (length_bind_seq _ 1). reflexivity.
  - apply (length_bind_seq _ 100). intros c.
    apply (length_bind_seq _ 10). intros i.
    apply (length_bind_seq _ 1). reflexivity.
Qed.

Lemma lookup_bind_seq {A} (g : nat -> list A) b :
  (forall x, length (g x) = b) ->
  forall n lo i j, (i < n)%nat -> (j < b)%nat ->
    (x ← seq lo n; g x) !! (b * i + j)%nat = g (lo + i)%nat !! j.
Proof.
  intros Hg. induction n as [|n IH]; intros lo i j Hi Hj; [lia|].
  simpl. destruct i as [|i].
  - rewrite Nat.mul_0_r, Nat.add_0_l, Nat.add_0_r.
    apply lookup_app_l. rewrite Hg. exact Hj.
  - rewrite lookup_app_r by (rewrite Hg; lia). rewrite Hg.
    replace (b * S i + j - b)%nat with (b * i + j)%nat by lia.
    rewrite IH by lia. f_equal. f_equal. lia.
Qed.

Lemma bind_singleton_map {A} (h : nat -> A) n :
  forall lo, (y ← seq lo n; [h y]) = map h (seq lo n).
Proof.
  induction n as [|n IH]; intros lo; simpl; [reflexivity|]. now rewrite IH.
Qed.

(** The cell of rank b i + j of a grid of a rows and b columns. *)
Lemma lookup_grid {A} (f : nat -> nat -> A) a b i j :
  (i < a)%nat -> (j < b)%nat ->
  (x ← seq 0 a; y ← seq 0 b; [f x y]) !! (b * i + j)%nat = Some (f i j).
Proof.
  intros Hi Hj.
  rewrite (lookup_bind_seq (fun x => y ← seq 0 b; [f x y]) b) by
    (try intros x; try rewrite bind_singleton_map, length_map, length_seq; auto).
  rewrite bind_singleton_map, list_lookup_fmap, lookup_seq_lt by exact Hj.
  reflexivity.
Qed.

Lemma putItemInput_fields i j :
  pi_TableName (putItemInput i j) = "TryDaxGoTable"
  /\ pi_Item (putItemInput i j) !! "pk" = Some (attrS ("key_" +:+ itoa i))
  /\ pi_Item (putItemInput i j) !! "sk" = Some (attrN (itoa j))
  /\ pi_Item (putItemInput i j) !! "value"
     = Some (attrS ("val_" +:+ itoa i +:+ "_" +:+ itoa j))
  /\ size (pi_Item (putItemInput i j)) = 3%nat.
Proof. repeat split. Qed.

(** *** Claim C3 *)

(** C3: for each of the four looping executors (put-item, get-item, query,
    scan), in either file, and for every client whose n-th call in the run
    returns an error (n between 1 and the number of calls of the loop), the
    executor returns that error, and the requests it has sent are exactly the
    first n of its sequence: n calls, none repeated after the failure. *)
Theorem executor_stops_at_nth_error
  (l : Loop) (env : Env) (fl : Flags) (client : Client) (n : nat) (e : error) :
  NthCallFails client (loopRequests l) n e ->
  (n <= length (loopRequests l))%nat
  /\ (exists p, executorPart000 l env fl client start = (p, Err e)
        /\ issued p = take n (loopRequests l) /\ length (issued p) = n)
  /\ (TryDax.initItemClient env fl = Ok client ->
      exists p, executorTryDax l env fl start = (p, Err e)
        /\ issued p = take n (loopRequests l) /\ length (issued p) = n).
Proof.
  intros Hfail.
  destruct (loopBody_err env fl client l n e start eq_refl Hfail)
    as (p & Hrun & Hiss & Hlen & _).
  split; [|split].
  - rewrite <- Hlen, Hiss, length_take. lia.
  - exists p. rewrite executorPart000_body. auto.
  - intros Hinit. exists p. rewrite (executorTryDax_body l env fl client Hinit). auto.
Qed.

Lemma executor_stops_at_nth_error_witness :
  NthCallFails failing37 (loopRequests LoopPutItem) 37 "backend down"
  /\ (exists p, executorPart000 LoopPutItem (sampleEnv failing37)
                 (sampleFlags "dax" "put-item" "cluster:8111") failing37 start
               = (p, Err "backend down")
        /\ issued p = take 37 (loopRequests LoopPutItem)
        /\ length (issued p) = 37%nat)
  /\ (exists p, executorTryDax LoopPutItem (sampleEnv failing37)
                 (sampleFlags "dax" "put-item" "cluster:8111") start
               = (p, Err "backend down")
        /\ issued p = take 37 (loopRequests LoopPutItem)
        /\ length (issued p) = 37%nat).
Proof.
  assert (Hfail : NthCallFails failing37 (loopRequests LoopPutItem) 37 "backend down").
  { apply failNth_fails. rewrite loopRequests_length. lia. }
  destruct (executor_stops_at_nth_error LoopPutItem (sampleEnv failing37)
              (sampleFlags "dax" "put-item" "cluster:8111") failing37 37
              "backend down" Hfail) as (_ & HP & HT).
  split; [exact Hfail|]. split; [exact HP | exact (HT eq_refl)].
Defined.

(** The same run, computed. *)
Example put_item_fails_at_37 :
  let r := Part000.executePutItem (sampleFlags "dynamodb" "put-item" "")
             (failNth 37 "backend down") start in
  snd r = Err "backend down"
  /\ length (issued (fst r)) = 37%nat
  /\ last (issued (fst r)) = Some (PutItem (putItemInput 3 6)).
Proof. vm_compute. repeat split. Qed.

(** *** Claim C4 *)

(** C4: on a client all of whose calls succeed, the put-item executor of
    either file returns nil after sending exactly the 100 requests of the
    grid: the request of rank 10 i + j is the PutItem for (i, j), i and j in
    0..9, on table TryDaxGoTable, with pk = S "key_<i>", sk = N "<j>" and
    value = S "val_<i>_<j>". *)
Theorem put_item_issues_grid (env : Env) (fl : Flags) (client : Client) :
  AllSucceed client ->
  (exists p, Part000.executePutItem fl client start = (p, Ok tt)
        /\ issued p = putItemRequests)
  /\ (TryDax.initItemClient env fl = Ok client ->
      exists p, TryDax.executePutItem env fl start = (p, Ok tt)
        /\ issued p = putItemRequests)
  /\ length putItemRequests = 100%nat
  /\ (forall i j, (i < 10)%nat -> (j < 10)%nat ->
        putItemRequests !! (10 * i + j)%nat = Some (PutItem (putItemInput i j)))
  /\ (forall i j,
        pi_TableName (putItemInput i j) = "TryDaxGoTable"
        /\ pi_Item (putItemInput i j) !! "pk" = Some (attrS ("key_" +:+ itoa i))
        /\ pi_Item (putItemInput i j) !! "sk" = Some (attrN (itoa j))
        /\ pi_Item (putItemInput i j) !! "value"
           = Some (attrS ("val_" +:+ itoa i +:+ "_" +:+ itoa j))
        /\ size (pi_Item (putItemInput i j)) = 3%nat).
Proof.
  intros Hok.
  destruct (loopBody_ok env fl client LoopPutItem start Hok) as (p & Hrun & Hiss & _).
  simpl in Hiss.
  split; [exists p; auto|]. split.
  { intros Hinit. exists p.
    pose proof (executorTryDax_body LoopPutItem env fl client Hinit) as Heq.
    unfold executorTryDax in Heq. rewrite Heq. auto. }
  split; [apply (loopRequests_length LoopPutItem)|]. split.
  - intros i j Hi Hj.
    apply (lookup_grid (fun i j => PutItem (putItemInput i j)) 10 10); assumption.
  - apply putItemInput_fields.
Qed.

Lemma put_item_issues_grid_witness :
  AllSucceed okClient
  /\ (exists p, TryDax.executePutItem (sampleEnv okClient)
                 (sampleFlags "dynamodb" "put-item" "") start = (p, Ok tt)
        /\ issued p = putItemRequests)
  /\ putItemRequests !! (10 * 3 + 7)%nat = Some (PutItem (putItemInput 3 7)).
Proof.
  destruct (put_item_issues_grid (sampleEnv okClient)
              (sampleFlags "dynamodb" "put-item" "") okClient okClient_succeeds)
    as (_ & HT & _ & Hidx & _).
  split; [exact okClient_succeeds|].
  split; [exact (HT eq_refl) | apply (Hidx 3%nat 7%nat); lia].
Defined.

Example putItemInput_3_7 :
  pi_Item (putItemInput 3 7) !! "pk" = Some (attrS "key_3")
  /\ pi_Item (putItemInput 3 7) !! "sk" = Some (attrN "7")
  /\ pi_Item (putItemInput 3 7) !! "value" = Some (attrS "val_3_7").
Proof. repeat split. Qed.

(** ** The timed executors *)

Lemma getItemBody_ok env fl client p :
  AllSucceed client ->
  exists p', getItemBody env fl client p = (p', Ok tt)
    /\ issued p' = issued p ++ getItemRequests
    /\ stderr p' = stderr p
    /\ last (stdout p')
       = Some (timingLine (clock env (S (clockReads p)) - clock env (clockReads p))).
Proof. apply (timed_ok env fl client), getItemLoop_callEach. Qed.

Lemma queryBody_ok env fl client p :
  AllSucceed client ->
  exists p', queryBody env fl client p = (p', Ok tt)
    /\ issued p' = issued p ++ queryRequests
    /\ stderr p' = stderr p
    /\ last (stdout p')
       = Some (timingLine (clock env (S (clockReads p)) - clock env (clockReads p))).
Proof.
  apply (timed_ok env fl client). intros q. apply forRange_const.
Qed.

Lemma bind_seq_const {A} (g : list A) n :
  forall lo, (c ← seq lo n; g) = concat (replicate n g).
Proof.
  induction n as [|n IH]; intros lo; [reflexivity|].
  simpl. now rewrite <- (IH (S lo)).
Qed.

Lemma timingLine_avg d :
  0 <= d ->
  timingLine d = Timing d (Z.quot d 25) /\ 0 <= Z.quot d 25 /\ Z.quot d 25 = d / 25.
Proof.
  intros Hd. split; [reflexivity|]. split.
  - apply Z.quot_pos; lia.
  - apply Z.quot_div_nonneg; lia.
Qed.

(** *** Claim C5 *)

(** C5: on a client all of whose calls succeed, the get-item executor of
    either file returns nil after sending exactly 2500 GetItem requests, the
    grid of the 100 keys (pk = S "key_<i>", sk = N "<j>", i and j in 0..9)
    25 times over, and the last line it prints reports the elapsed time d
    between its two clock readings with the average d / 25; with a clock that
    does not run backwards the average is not negative.  The quotient is Go's
    truncating one, which is the floor of d / 25 here. *)
Theorem get_item_issues_2500 (env : Env) (fl : Flags) (client : Client) :
  AllSucceed client ->
  Monotonic env ->
  let d := clock env 1 - clock env 0 in
  (exists p, Part000.executeGetItem env fl client start = (p, Ok tt)
        /\ issued p = getItemRequests
        /\ last (stdout p) = Some (Timing d (Z.quot d 25)))
  /\ (TryDax.initItemClient env fl = Ok client ->
      exists p, TryDax.executeGetItem env fl start = (p, Ok tt)
        /\ issued p = getItemRequests
        /\ last (stdout p) = Some (Timing d (Z.quot d 25)))
  /\ length getItemRequests = 2500%nat
  /\ getItemRequests = concat (replicate 25 getItemGrid)
  /\ length getItemGrid = 100%nat
  /\ (forall i j, (i < 10)%nat -> (j < 10)%nat ->
        getItemGrid !! (10 * i + j)%nat = Some (GetItem (getItemInput i j))
        /\ gi_TableName (getItemInput i j) = "TryDaxGoTable"
        /\ gi_Key (getItemInput i j) !! "pk" = Some (attrS ("key_" +:+ itoa i))
        /\ gi_Key (getItemInput i j) !! "sk" = Some (attrN (itoa j)))
  /\ 0 <= Z.quot d 25
  /\ Z.quot d 25 = d / 25.
Proof.
  intros Hok Hmono d.
  assert (Hd : 0 <= d) by (specialize (Hmono O); unfold d; lia).
  destruct (timingLine_avg d Hd) as (Hline & Hpos & Hdiv).
  destruct (getItemBody_ok env fl client start Hok) as (p & Hrun & Hiss & _ & Hout).
  simpl in Hiss, Hout. fold d in Hout. rewrite Hline in Hout.
  split; [exists p; auto|]. split.
  { intros Hinit. exists p.
    pose proof (executorTryDax_body LoopGetItem env fl client Hinit) as Heq.
    unfold executorTryDax in Heq. rewrite Heq. auto. }
  split; [apply (loopRequests_length LoopGetItem)|].
  split; [apply bind_seq_const|].
  split.
  { apply (length_bind_seq _ 10). intros i.
    apply (length_bind_seq _ 1). reflexivity. }
  split; [|auto].
  intros i j Hi Hj. split; [|repeat split].
  apply (lookup_grid (fun i j => GetItem (getItemInput i j)) 10 10); assumption.
Qed.

Lemma sampleEnv_monotonic c : Monotonic (sampleEnv c).
Proof. intros k. simpl. lia. Qed.

Lemma get_item_issues_2500_witness :
  AllSucceed okClient
  /\ Monotonic (sampleEnv okClient)
  /\ (exists p, Part000.executeGetItem (sampleEnv okClient)
                 (sampleFlags "dynamodb" "get-item" "") okClient start = (p, Ok tt)
        /\ issued p = getItemRequests
        /\ last (stdout p)
           = Some (Timing (clock (sampleEnv okClient) 1 - clock (sampleEnv okClient) 0)
                     (Z.quot (clock (sampleEnv okClient) 1
                              - clock (sampleEnv okClient) 0) 25))).
Proof.
  pose proof (get_item_issues_2500 (sampleEnv okClient)
                (sampleFlags "dynamodb" "get-item" "") okClient
                okClient_succeeds (sampleEnv_monotonic okClient)) as H.
  cbv zeta in H. destruct H as (HP & _).
  split; [exact okClient_succeeds|].
  split; [exact (sampleEnv_monotonic okClient) | exact HP].
Defined.

(** With the sample clock, 1000 ns elapse and the average is 40 ns. *)
Example sample_timing :
  timingLine (clock (sampleEnv okClient) 1 - clock (sampleEnv okClient) 0)
  = Timing 1000 40.
Proof. reflexivity. Qed.

(** *** Claim C6 *)

(** C6: on a client all of whose calls succeed, the query executor of either
    file returns nil after sending exactly 25 Query requests, each of them
    the same request on table TryDaxGoTable with :pkval = S "key_5",
    :skval1 = N "2" and :skval2 = N "9" in the condition
    pk = :pkval and sk between :skval1 and :skval2. *)
Theorem query_issues_25 (env : Env) (fl : Flags) (client : Client) :
  AllSucceed client ->
  (exists p, Part000.executeQuery env fl client start = (p, Ok tt)
        /\ issued p = queryRequests)
  /\ (TryDax.initItemClient env fl = Ok client ->
      exists p, TryDax.executeQuery env fl start = (p, Ok tt)
        /\ issued p = queryRequests)
  /\ length queryRequests = 25%nat
  /\ (forall r, r ∈ queryRequests -> r = Query queryInput)
  /\ q_TableName queryInput = "TryDaxGoTable"
  /\ q_KeyConditionExpression queryInput
     = "pk = :pkval and sk between :skval1 and :skval2"
  /\ q_ExpressionAttributeValues queryInput !! ":pkval" = Some (attrS "key_5")
  /\ q_ExpressionAttributeValues queryInput !! ":skval1" = Some (attrN "2")
  /\ q_ExpressionAttributeValues queryInput !! ":skval2" = Some (attrN "9")
  /\ size (q_ExpressionAttributeValues queryInput) = 3%nat.
Proof.
  intros Hok.
  destruct (queryBody_ok env fl client start Hok) as (p & Hrun & Hiss & _).
  simpl in Hiss.
  split; [exists p; auto|]. split.
  { intros Hinit. exists p.
    pose proof (executorTryDax_body LoopQuery env fl client Hinit) as Heq.
    unfold executorTryDax in Heq. rewrite Heq. auto. }
  split; [apply length_replicate|]. split.
  - intros r Hr. apply elem_of_replicate in Hr. tauto.
  - repeat split.
Qed.

Lemma query_issues_25_witness :
  AllSucceed okClient
  /\ (exists p, TryDax.executeQuery (sampleEnv okClient)
                  (sampleFlags "dax" "query" "cluster:8111") start = (p, Ok tt)
        /\ issued p = queryRequests)
  /\ Query queryInput ∈ queryRequests.
Proof.
  destruct (query_issues_25 (sampleEnv okClient)
              (sampleFlags "dax" "query" "cluster:8111") okClient okClient_succeeds)
    as (_ & HT & _).
  split; [exact okClient_succeeds|].
  split; [exact (HT eq_refl) | apply elem_of_replicate; split; [reflexivity | discriminate]].
Defined.

(** ** Table operations *)

(** *** Claim C7 *)

(** C7: in either file, every request that the create-table executor sends
    is the one CreateTable request for table TryDaxGoTable whose key schema
    is pk as HASH key and sk as RANGE key, whose attribute definitions give
    pk the type S (string) and sk the type N (number), and whose provisioned
    throughput is 100 read and 100 write capacity units; with a table client
    at hand, exactly one such request is sent. *)
Theorem create_table_request_schema (env : Env) (fl : Flags) (client : Client) :
  issued (fst (Part000.executeCreateTable fl client start))
  = [CreateTable createTableInput]
  /\ Forall (fun r => r = CreateTable createTableInput)
            (issued (fst (TryDax.executeCreateTable env fl start)))
  /\ (TryDax.initTableClient env fl = Ok client ->
      issued (fst (TryDax.executeCreateTable env fl start))
      = [CreateTable createTableInput])
  /\ ct_TableName createTableInput = "TryDaxGoTable"
  /\ ct_KeySchema createTableInput
     = [ {| kse_AttributeName := "pk"; kse_KeyType := KeyTypeHash |};
         {| kse_AttributeName := "sk"; kse_KeyType := KeyTypeRange |} ]
  /\ ct_AttributeDefinitions createTableInput
     = [ {| ad_AttributeName := "pk"; ad_AttributeType := ScalarAttributeTypeS |};
         {| ad_AttributeName := "sk"; ad_AttributeType := ScalarAttributeTypeN |} ]
  /\ ct_ProvisionedThroughput createTableInput
     = {| ReadCapacityUnits := 100; WriteCapacityUnits := 100 |}.
Proof.
  assert (Hbody : forall c, issued (fst (createTableBody fl c start))
                            = [CreateTable createTableInput]).
  { intros c. unfold createTableBody, bind, call, writeVerbose. simpl.
    destruct (c [] (CreateTable createTableInput)) as [out|e]; [|reflexivity].
    destruct (verbose fl); reflexivity. }
  split; [apply Hbody|]. split; [|split].
  - unfold TryDax.executeCreateTable.
    destruct (TryDax.initTableClient env fl) as [c|e].
    + rewrite Hbody. repeat constructor.
    + constructor.
  - intros Hinit. unfold TryDax.executeCreateTable. rewrite Hinit. apply Hbody.
  - repeat split.
Qed.

Lemma create_table_request_schema_witness :
  TryDax.initTableClient (sampleEnv okClient) (sampleFlags "dynamodb" "create-table" "")
  = Ok okClient
  /\ issued (fst (TryDax.executeCreateTable (sampleEnv okClient)
                    (sampleFlags "dynamodb" "create-table" "") start))
     = [CreateTable createTableInput].
Proof.
  destruct (create_table_request_schema (sampleEnv okClient)
              (sampleFlags "dynamodb" "create-table" "") okClient)
    as (_ & _ & HT & _).
  split; [reflexivity | exact (HT eq_refl)].
Defined.

(** *** Claim C8 *)

(** C8, as stated, fails on the text of the error: for service dax,
    [initTableClient] returns an error, but its text is not the one of the
    claim. *)
Lemma dax_table_client_error_text :
  TryDax.initTableClient (sampleEnv okClient)
    (sampleFlags "dax" "create-table" "cluster:8111")
  = Err "for table operations use service 'dynamodb'"
  /\ TryDax.initTableClient (sampleEnv okClient)
       (sampleFlags "dax" "create-table" "cluster:8111")
     <> Err "table operations unsupported on this backend".
Proof. split; [reflexivity | discriminate]. Qed.

(** C8, amended: in try_dax.go, when the service is dax, building the table
    client fails with the error "for table operations use service
    'dynamodb'", and the create-table and delete-table executors return that
    error without sending any request or writing anything; a table client,
    when there is one, is the dynamodb client of the region.  The other file
    has no table client: there, for service dax with create-table or
    delete-table, [validate] returns an error (the endpoint error when the
    endpoint is empty, else "service 'dax' does not support table operations,
    use service 'dynamodb'") and [main] sends no request. *)
Theorem dax_table_client_rejected (env : Env) (fl : Flags) :
  (service fl = "dax" ->
     TryDax.initTableClient env fl = Err "for table operations use service 'dynamodb'"
     /\ TryDax.executeCreateTable env fl start
        = (start, Err "for table operations use service 'dynamodb'")
     /\ TryDax.executeDeleteTable env fl start
        = (start, Err "for table operations use service 'dynamodb'"))
  /\ (forall client, TryDax.initTableClient env fl = Ok client ->
        service fl <> "dax" /\ client = dynamodbNew env (region fl))
  /\ (service fl = "dax" ->
      command fl = "create-table" \/ command fl = "delete-table" ->
        Part000.validate fl
        = Some (if Nat.eqb (String.length (endpoint fl)) 0 then err_endpoint
                else "service 'dax' does not support table operations, use service 'dynamodb'")
        /\ forall args, Part000.parseFlags args = fl ->
             issued (fst (Part000.main args env)) = []).
Proof.
  split; [|split].
  - intros Hs. unfold TryDax.executeCreateTable, TryDax.executeDeleteTable,
      TryDax.initTableClient. rewrite Hs. repeat split.
  - intros client. unfold TryDax.initTableClient, ddbClient.
    destruct (String.eqb_spec (service fl) "dax") as [Hs|Hs]; [discriminate|].
    destruct (newSession env (Some (region fl))); [discriminate|].
    intros [= <-]. auto.
  - intros Hs Hc.
    assert (Hv : Part000.validate fl
                 = Some (if Nat.eqb (String.length (endpoint fl)) 0 then err_endpoint
                         else Part000.err_tableop)).
    { unfold Part000.validate. rewrite Hs.
      destruct Hc as [-> | ->]; simpl;
        destruct (Nat.eqb (String.length (endpoint fl)) 0); reflexivity. }
    split; [exact Hv|].
    intros args <-. unfold Part000.main. rewrite Hv. reflexivity.
Qed.

Lemma dax_table_client_rejected_witness :
  TryDax.executeCreateTable (sampleEnv okClient)
    (sampleFlags "dax" "create-table" "cluster:8111") start
  = (start, Err "for table operations use service 'dynamodb'")
  /\ issued (fst (Part000.main (sampleArgs "dax" "delete-table" "cluster:8111")
                    (sampleEnv okClient))) = [].
Proof.
  split.
  - destruct (dax_table_client_rejected (sampleEnv okClient)
                (sampleFlags "dax" "create-table" "cluster:8111")) as (H & _ & _).
    apply (H eq_refl).
  - destruct (dax_table_client_rejected (sampleEnv okClient)
                (Part000.parseFlags (sampleArgs "dax" "delete-table" "cluster:8111")))
      as (_ & _ & H).
    destruct (H eq_refl (or_intror eq_refl)) as (_ & Hmain).
    apply (Hmain _ eq_refl).
Defined.

(** ** Validation *)

Lemma contains_elem_of needle haystack :
  contains needle haystack = true <-> needle ∈ haystack.
Proof.
  induction haystack as [|v rest IH]; simpl.
  - split; [discriminate | intros H; inversion H].
  - destruct (String.eqb_spec needle v) as [->|Hne].
    + split; [intros _; left | reflexivity].
    + rewrite IH. split; [intros H; now right|].
      intros H. inversion H; subst; [contradiction | assumption].
Qed.

Lemma contains_not_elem_of needle haystack :
  contains needle haystack = false <-> needle ∉ haystack.
Proof.
  rewrite <- contains_elem_of. destruct (contains needle haystack); split; congruence.
Qed.

Lemma services_cases s : s ∈ services <-> s = "dynamodb" \/ s = "dax".
Proof. unfold services. rewrite !elem_of_cons, elem_of_nil. tauto. Qed.

(** The keys of [commandMap] are the commands of the other file. *)
Lemma commandMap_keys cmd :
  is_Some (TryDax.commandMap !! cmd) <-> cmd ∈ Part000.commands.
Proof.
  unfold TryDax.commandMap, Part000.commands.
  rewrite !lookup_insert_is_Some, lookup_empty, !elem_of_cons, elem_of_nil.
  split.
  - intros H. repeat (destruct H as [H|[_ H]]; [symmetry in H; tauto|]).
    destruct H as [? H]; discriminate.
  - intros H.
    destruct (decide (cmd = "create-table")) as [->|?]; [now left|right; split; [congruence|]].
    destruct (decide (cmd = "delete-table")) as [->|?]; [now left|right; split; [congruence|]].
    destruct (decide (cmd = "put-item")) as [->|?]; [now left|right; split; [congruence|]].
    destruct (decide (cmd = "get-item")) as [->|?]; [now left|right; split; [congruence|]].
    destruct (decide (cmd = "query")) as [->|?]; [now left|right; split; [congruence|]].
    destruct (decide (cmd = "scan")) as [->|?]; [now left|exfalso; tauto].
Qed.

Lemma listOfKeys_length_ok (order : list string) :
  length order = size TryDax.commandMap ->
  TryDax.listOfKeys order TryDax.commandMap = order.
Proof.
  intros Hlen. change (size TryDax.commandMap) with 6%nat in Hlen.
  do 7 (destruct order as [|? order]; try discriminate). reflexivity.
Qed.

Example listOfKeys_sampleOrder :
  TryDax.listOfKeys sampleOrder TryDax.commandMap = sampleOrder.
Proof. vm_compute. reflexivity. Qed.

Lemma initializeOptions_ok order args env p0 p fl :
  TryDax.initializeOptions order args env p0 = (p, Ok fl) ->
  p = p0 /\ newSession env None = None
  /\ exists detectedRegion,
       mdRegion env = Ok detectedRegion
       /\ fl = TryDax.parseFlags args detectedRegion
       /\ TryDax.validate order fl = None.
Proof.
  unfold TryDax.initializeOptions.
  destruct (newSession env None) as [e|]; [discriminate|].
  destruct (mdRegion env) as [r|e]; [|discriminate].
  destruct (TryDax.validate order (TryDax.parseFlags args r)) as [e|] eqn:Hv;
    [discriminate|].
  intros [= <- <-]. eauto 6.
Qed.

Lemma initializeOptions_err order args env p e :
  TryDax.initializeOptions order args env start = (p, Err e) ->
  issued p = [] /\ exists line, stderr p = [line].
Proof.
  unfold TryDax.initializeOptions.
  destruct (newSession env None) as [e1|]; [intros [= <- <-]; simpl; eauto|].
  destruct (mdRegion env) as [r|e2]; [|intros [= <- <-]; simpl; eauto].
  destruct (TryDax.validate order (TryDax.parseFlags args r)) as [e3|];
    [intros [= <- <-]; simpl; eauto | discriminate].
Qed.

(** Whatever the command line and the environment, [main] does not panic. *)
Lemma main_never_panics order args env :
  snd (TryDax.main order args env) <> Panic.
Proof.
  unfold TryDax.main.
  destruct (TryDax.initializeOptions order args env start) as [p [fl|e]] eqn:Hinit;
    [|discriminate].
  destruct (initializeOptions_ok _ _ _ _ _ _ Hinit) as (_ & _ & r & _ & _ & Hv).
  unfold TryDax.validate in Hv.
  destruct (negb (contains (service fl) services)); [discriminate|].
  destruct (TryDax.commandMap !! command fl) as [exec|]; [|discriminate].
  destruct (TryDax.invoke exec env fl p) as [p' [[]|e]]; discriminate.
Qed.

(** *** Claim C9 *)

(** C9: in try_dax.go, whenever [validate] returns nil the command is a key
    of [commandMap], so that the function [main] calls is one of the
    executors, never the nil function of a missing key: no run of [main]
    ends in the panic of such a call. *)
Theorem validate_nil_dispatch_defined (order : list string) (fl : Flags) :
  TryDax.validate order fl = None ->
  (exists exec, TryDax.commandMap !! command fl = Some exec)
  /\ (forall args env, snd (TryDax.main order args env) <> Panic).
Proof.
  intros Hv. split; [|intros args env; apply main_never_panics].
  unfold TryDax.validate in Hv.
  destruct (negb (contains (service fl) services)); [discriminate|].
  destruct (TryDax.commandMap !! command fl) as [exec|]; [eauto | discriminate].
Qed.

Lemma validate_nil_dispatch_defined_witness :
  TryDax.validate sampleOrder (sampleFlags "dax" "scan" "cluster:8111") = None
  /\ exists exec,
       TryDax.commandMap !! command (sampleFlags "dax" "scan" "cluster:8111")
       = Some exec.
Proof.
  assert (Hv : TryDax.validate sampleOrder (sampleFlags "dax" "scan" "cluster:8111")
               = None) by reflexivity.
  split; [exact Hv|].
  exact (proj1 (validate_nil_dispatch_defined sampleOrder
                  (sampleFlags "dax" "scan" "cluster:8111") Hv)).
Defined.

(** ** The decision table of [validate] *)

Lemma err_texts :
  err_service = "service should be one of [dynamodb | dax]"
  /\ Part000.err_command
     = "command should be one of [create-table | put-item | get-item | query | scan | delete-table]"
  /\ err_endpoint = "endpoint should be set for 'dax' service"
  /\ Part000.err_tableop
     = "service 'dax' does not support table operations, use service 'dynamodb'".
Proof. repeat split. Qed.

Lemma length_0_empty (s : string) : Nat.eqb (String.length s) 0 = true <-> s = "".
Proof. destruct s; simpl; split; congruence. Qed.

Section Table.

Variables (order : list string) (fl : Flags).

Lemma Part000_reject_service :
  service fl ∉ services -> Part000.validate fl = Some err_service.
Proof.
  intros H. apply contains_not_elem_of in H.
  unfold Part000.validate. now rewrite H.
Qed.

Lemma Part000_reject_command :
  service fl ∈ services -> command fl ∉ Part000.commands ->
  Part000.validate fl = Some Part000.err_command.
Proof.
  intros Hs Hc. apply contains_elem_of in Hs. apply contains_not_elem_of in Hc.
  unfold Part000.validate. now rewrite Hs, Hc.
Qed.

Lemma Part000_dax :
  service fl = "dax" -> command fl ∈ Part000.commands ->
  Part000.validate fl
  = if Nat.eqb (String.length (endpoint fl)) 0 then Some err_endpoint
    else if String.eqb (command fl) "create-table"
            || String.eqb (command fl) "delete-table"
    then Some Part000.err_tableop
    else None.
Proof.
  intros Hs Hc. apply contains_elem_of in Hc.
  unfold Part000.validate. rewrite Hs, Hc. reflexivity.
Qed.

Lemma Part000_dynamodb :
  service fl = "dynamodb" -> command fl ∈ Part000.commands ->
  Part000.validate fl = None.
Proof.
  intros Hs Hc. apply contains_elem_of in Hc.
  unfold Part000.validate. rewrite Hs, Hc. reflexivity.
Qed.

Lemma TryDax_reject_service :
  service fl ∉ services -> TryDax.validate order fl = Some err_service.
Proof.
  intros H. apply contains_not_elem_of in H.
  unfold TryDax.validate. now rewrite H.
Qed.

Lemma TryDax_reject_command :
  service fl ∈ services -> TryDax.commandMap !! command fl = None ->
  TryDax.validate order fl = Some (TryDax.err_command order).
Proof.
  intros Hs Hc. apply contains_elem_of in Hs.
  unfold TryDax.validate. now rewrite Hs, Hc.
Qed.

Lemma TryDax_dax :
  service fl = "dax" -> is_Some (TryDax.commandMap !! command fl) ->
  TryDax.validate order fl
  = if Nat.eqb (String.length (endpoint fl)) 0 then Some err_endpoint else None.
Proof.
  intros Hs [exec Hc]. unfold TryDax.validate. rewrite Hs, Hc. reflexivity.
Qed.

Lemma TryDax_dynamodb :
  service fl = "dynamodb" -> is_Some (TryDax.commandMap !! command fl) ->
  TryDax.validate order fl = None.
Proof.
  intros Hs [exec Hc]. unfold TryDax.validate. rewrite Hs, Hc. reflexivity.
Qed.

(** The error of a check tells which checks were passed before it. *)
Lemma Part000_late_errors e :
  Part000.validate fl = Some e ->
  e = err_endpoint \/ e = Part000.err_tableop ->
  service fl = "dax" /\ command fl ∈ Part000.commands.
Proof.
  unfold Part000.validate.
  destruct (contains (service fl) services) eqn:Hs; cbn [negb];
    [|intros He [H|H]; rewrite H in He; cbv in He; discriminate].
  destruct (contains (command fl) Part000.commands) eqn:Hc; cbn [negb];
    [|intros He [H|H]; rewrite H in He; cbv in He; discriminate].
  destruct (String.eqb_spec (service fl) "dax") as [Hd|Hd]; [|discriminate].
  intros _ _. split; [exact Hd | now apply contains_elem_of].
Qed.

Lemma TryDax_late_errors :
  TryDax.validate order fl = Some err_endpoint ->
  service fl = "dax" /\ is_Some (TryDax.commandMap !! command fl).
Proof.
  unfold TryDax.validate.
  destruct (contains (service fl) services) eqn:Hs; cbn [negb]; [|discriminate].
  destruct (TryDax.commandMap !! command fl) as [exec|] eqn:Hc; [|discriminate].
  destruct (String.eqb_spec (service fl) "dax") as [Hd|Hd]; [|discriminate].
  intros _. split; [exact Hd | eauto].
Qed.

(** Outside service dax with a valid command, the endpoint is not looked at. *)
Lemma Part000_endpoint_unread ep :
  service fl <> "dax" \/ command fl ∉ Part000.commands ->
  Part000.validate (withEndpoint ep fl) = Part000.validate fl.
Proof.
  intros H. unfold Part000.validate.
  change (service (withEndpoint ep fl)) with (service fl).
  change (command (withEndpoint ep fl)) with (command fl).
  change (endpoint (withEndpoint ep fl)) with ep.
  destruct (contains (service fl) services); [|reflexivity].
  destruct (contains (command fl) Part000.commands) eqn:Hc; [|reflexivity].
  destruct (String.eqb_spec (service fl) "dax") as [Hd|Hd]; [|reflexivity].
  destruct H as [H|H]; [contradiction|].
  apply contains_not_elem_of in H. congruence.
Qed.

Lemma TryDax_endpoint_unread ep :
  service fl <> "dax" \/ TryDax.commandMap !! command fl = None ->
  TryDax.validate order (withEndpoint ep fl) = TryDax.validate order fl.
Proof.
  intros H. unfold TryDax.validate.
  change (service (withEndpoint ep fl)) with (service fl).
  change (command (withEndpoint ep fl)) with (command fl).
  change (endpoint (withEndpoint ep fl)) with ep.
  destruct (contains (service fl) services); [|reflexivity].
  destruct (TryDax.commandMap !! command fl) as [exec|] eqn:Hc; [|reflexivity].
  destruct (String.eqb_spec (service fl) "dax") as [Hd|Hd]; [|reflexivity].
  destruct H as [H|H]; [contradiction | discriminate].
Qed.

(** What [validate] accepts. *)
Lemma Part000_accepts :
  Part000.validate fl = None <->
  service fl ∈ services /\ command fl ∈ Part000.commands
  /\ (service fl = "dax" ->
        endpoint fl <> "" /\ command fl <> "create-table"
        /\ command fl <> "delete-table").
Proof.
  rewrite <- !contains_elem_of. unfold not. rewrite <- length_0_empty.
  unfold Part000.validate.
  destruct (contains (service fl) services);
    [|split; [discriminate | intros (H & _); discriminate]].
  destruct (contains (command fl) Part000.commands);
    [|split; [discriminate | intros (_ & H & _); discriminate]].
  cbn [negb].
  destruct (String.eqb_spec (service fl) "dax") as [Hd|Hd]; [|tauto].
  destruct (Nat.eqb (String.length (endpoint fl)) 0);
    [split; [discriminate | intros (_ & _ & H); destruct (H Hd) as (H' & _); tauto]|].
  destruct (String.eqb_spec (command fl) "create-table") as [Hc|Hc];
    [split; [discriminate | intros (_ & _ & H); destruct (H Hd) as (_ & H' & _); tauto]|].
  destruct (String.eqb_spec (command fl) "delete-table") as [Hc'|Hc'];
    [split; [discriminate | intros (_ & _ & H); destruct (H Hd) as (_ & _ & H'); tauto]|].
  cbn [orb]. repeat split; try discriminate; assumption.
Qed.

Lemma TryDax_accepts :
  TryDax.validate order fl = None <->
  service fl ∈ services /\ command fl ∈ Part000.commands
  /\ (service fl = "dax" -> endpoint fl <> "").
Proof.
  rewrite <- commandMap_keys, <- contains_elem_of.
  unfold not. rewrite <- length_0_empty. unfold TryDax.validate.
  destruct (contains (service fl) services);
    [|split; [discriminate | intros (H & _); discriminate]].
  cbn [negb].
  destruct (TryDax.commandMap !! command fl) as [exec|];
    [|split; [discriminate | intros (_ & [x H] & _); discriminate]].
  destruct (String.eqb_spec (service fl) "dax") as [Hd|Hd];
    [|split; [intros _; repeat split; eauto; tauto | reflexivity]].
  destruct (Nat.eqb (String.length (endpoint fl)) 0);
    [split; [discriminate | intros (_ & _ & H); destruct (H Hd); reflexivity]|].
  split; [|reflexivity]. intros _. repeat split; eauto. discriminate.
Qed.

End Table.

Lemma commandMap_None cmd :
  TryDax.commandMap !! cmd = None <-> cmd ∉ Part000.commands.
Proof. rewrite <- commandMap_keys. apply eq_None_not_Some. Qed.

Lemma messages_distinct_Part000 :
  NoDup [err_service; Part000.err_command; err_endpoint; Part000.err_tableop].
Proof.
  repeat (apply NoDup_cons; split;
          [rewrite ?elem_of_cons, elem_of_nil; intros H; cbv in H;
           intuition discriminate|]).
  apply NoDup_nil_2.
Qed.

Lemma messages_distinct_TryDax order :
  NoDup [err_service; TryDax.err_command order; err_endpoint].
Proof.
  repeat (apply NoDup_cons; split;
          [rewrite ?elem_of_cons, elem_of_nil; unfold TryDax.err_command;
           intros H; simpl in H; intuition discriminate|]).
  apply NoDup_nil_2.
Qed.

(** *** Claim C10 *)

(** C10: in both files the checks of [validate] come in order.  When the
    service and the command are both invalid the error is the one of the
    service.  The errors of the endpoint check and of the table-operation
    check are returned only for service dax with a valid command; for any
    other flags the endpoint has no influence on the result; and service
    dynamodb with a valid command is accepted whatever the endpoint, the
    empty one included.  (The keys of [commandMap] are the commands of the
    first file, so one notion of valid command serves both.) *)
Theorem validate_checks_ordered (order : list string) (fl : Flags) :
  (forall cmd, is_Some (TryDax.commandMap !! cmd) <-> cmd ∈ Part000.commands)
  /\ (service fl ∉ services -> command fl ∉ Part000.commands ->
        Part000.validate fl = Some err_service
        /\ TryDax.validate order fl = Some err_service)
  /\ (Part000.validate fl = Some err_endpoint
      \/ Part000.validate fl = Some Part000.err_tableop
      \/ TryDax.validate order fl = Some err_endpoint ->
        service fl = "dax" /\ service fl ∈ services
        /\ command fl ∈ Part000.commands)
  /\ (service fl <> "dax" \/ command fl ∉ Part000.commands ->
        forall ep,
          Part000.validate (withEndpoint ep fl) = Part000.validate fl
          /\ TryDax.validate order (withEndpoint ep fl) = TryDax.validate order fl)
  /\ (service fl = "dynamodb" -> command fl ∈ Part000.commands ->
        Part000.validate fl = None /\ TryDax.validate order fl = None).
Proof.
  split; [exact commandMap_keys|]. split; [|split; [|split]].
  - intros Hs _. split;
      [apply Part000_reject_service | apply TryDax_reject_service]; exact Hs.
  - assert (Hdax : "dax" ∈ services) by (apply services_cases; auto).
    intros [H|[H|H]].
    + destruct (Part000_late_errors fl _ H (or_introl eq_refl)) as [Hd Hc].
      rewrite Hd. auto.
    + destruct (Part000_late_errors fl _ H (or_intror eq_refl)) as [Hd Hc].
      rewrite Hd. auto.
    + destruct (TryDax_late_errors order fl H) as [Hd Hc].
      rewrite Hd. apply commandMap_keys in Hc. auto.
  - intros H ep. split.
    + apply Part000_endpoint_unread, H.
    + apply TryDax_endpoint_unread. rewrite commandMap_None. exact H.
  - intros Hs Hc. split.
    + apply Part000_dynamodb; assumption.
    + apply TryDax_dynamodb; [assumption | now apply commandMap_keys].
Qed.

Lemma validate_checks_ordered_witness :
  ((service (sampleFlags "redis" "drop-table" "") ∉ services)
   /\ (command (sampleFlags "redis" "drop-table" "") ∉ Part000.commands)
   /\ Part000.validate (sampleFlags "redis" "drop-table" "") = Some err_service
   /\ TryDax.validate sampleOrder (sampleFlags "redis" "drop-table" "")
      = Some err_service)
  /\ (Part000.validate (sampleFlags "dynamodb" "create-table" "") = None
      /\ TryDax.validate sampleOrder (sampleFlags "dynamodb" "create-table" "") = None).
Proof.
  assert (Hs : service (sampleFlags "redis" "drop-table" "") ∉ services).
  { apply contains_not_elem_of. reflexivity. }
  assert (Hc : command (sampleFlags "redis" "drop-table" "") ∉ Part000.commands).
  { apply contains_not_elem_of. reflexivity. }
  assert (Hc' : command (sampleFlags "dynamodb" "create-table" "") ∈ Part000.commands).
  { apply contains_elem_of. reflexivity. }
  split.
  - destruct (validate_checks_ordered sampleOrder (sampleFlags "redis" "drop-table" ""))
      as (_ & H & _).
    destruct (H Hs Hc) as [H1 H2]. auto.
  - destruct (validate_checks_ordered sampleOrder
                (sampleFlags "dynamodb" "create-table" "")) as (_ & _ & _ & _ & H).
    exact (H eq_refl Hc').
Defined.

(** *** Claim C2 *)

(** C2, as stated, fails for try_dax.go: its [validate] accepts service dax
    with create-table or delete-table once the endpoint is set. *)
Lemma trydax_validate_accepts_dax_table_op :
  TryDax.validate sampleOrder (sampleFlags "dax" "create-table" "cluster:8111") = None
  /\ TryDax.validate sampleOrder (sampleFlags "dax" "delete-table" "cluster:8111") = None.
Proof. split; reflexivity. Qed.

(** The text of the invalid-command error of try_dax.go follows the order in
    which the keys of the map were met. *)
Example err_command_follows_order :
  TryDax.err_command sampleOrder
  = "command should be one of [scan | create-table | query | put-item | delete-table | get-item]"
  /\ TryDax.err_command Part000.commands
     = "command should be one of [create-table | put-item | get-item | query | scan | delete-table]".
Proof. split; vm_compute; reflexivity. Qed.

(** C2, amended.  In the first file [validate] rejects the four bad inputs,
    each with its own fixed message: a service outside dynamodb and dax; a
    command outside the six commands; service dax with an empty endpoint;
    service dax with create-table or delete-table (the endpoint being set).
    In try_dax.go [validate] rejects the first three, each with its own
    message (the one for the command lists the keys of [commandMap] in the
    order the process met them), and accepts service dax with create-table or
    delete-table when the endpoint is set: that combination is rejected
    later, by [initTableClient].  In each file [validate] accepts exactly the
    flags that none of its checks rejects. *)
Theorem validate_rejections (order : list string) (env : Env) (fl : Flags) :
  ( (service fl ∉ services ->
       Part000.validate fl = Some "service should be one of [dynamodb | dax]")
    /\ (service fl ∈ services -> command fl ∉ Part000.commands ->
       Part000.validate fl
       = Some "command should be one of [create-table | put-item | get-item | query | scan | delete-table]")
    /\ (service fl = "dax" -> command fl ∈ Part000.commands -> endpoint fl = "" ->
       Part000.validate fl = Some "endpoint should be set for 'dax' service")
    /\ (service fl = "dax" -> endpoint fl <> "" ->
       command fl = "create-table" \/ command fl = "delete-table" ->
       Part000.validate fl
       = Some "service 'dax' does not support table operations, use service 'dynamodb'")
    /\ (Part000.validate fl = None <->
         service fl ∈ services /\ command fl ∈ Part000.commands
         /\ (service fl = "dax" ->
               endpoint fl <> "" /\ command fl <> "create-table"
               /\ command fl <> "delete-table"))
    /\ NoDup [err_service; Part000.err_command; err_endpoint; Part000.err_tableop] )
  /\
  ( (service fl ∉ services ->
       TryDax.validate order fl = Some "service should be one of [dynamodb | dax]")
    /\ (service fl ∈ services -> command fl ∉ Part000.commands ->
       TryDax.validate order fl
       = Some ("command should be one of [" +:+ TryDax.commandsMsg order +:+ "]"))
    /\ (length order = 6%nat -> TryDax.commandsMsg order = join order " | ")
    /\ (service fl = "dax" -> command fl ∈ Part000.commands -> endpoint fl = "" ->
       TryDax.validate order fl = Some "endpoint should be set for 'dax' service")
    /\ (service fl = "dax" -> endpoint fl <> "" ->
       command fl = "create-table" \/ command fl = "delete-table" ->
       TryDax.validate order fl = None
       /\ TryDax.initTableClient env fl
          = Err "for table operations use service 'dynamodb'")
    /\ (TryDax.validate order fl = None <->
         service fl ∈ services /\ command fl ∈ Part000.commands
         /\ (service fl = "dax" -> endpoint fl <> ""))
    /\ NoDup [err_service; TryDax.err_command order; err_endpoint] ).
Proof.
  assert (Hcmds : forall c, c = "create-table" \/ c = "delete-table" ->
                            c ∈ Part000.commands).
  { intros c [-> | ->]; apply contains_elem_of; reflexivity. }
  assert (Hep : endpoint fl <> "" -> Nat.eqb (String.length (endpoint fl)) 0 = false).
  { intros H. destruct (Nat.eqb (String.length (endpoint fl)) 0) eqn:E; [|reflexivity].
    apply length_0_empty in E. contradiction. }
  split.
  - split; [apply Part000_reject_service|].
    split; [apply Part000_reject_command|].
    split; [intros Hs Hc He; rewrite (Part000_dax fl Hs Hc), He; reflexivity|].
    split; [|split; [apply Part000_accepts | exact messages_distinct_Part000]].
    intros Hs He Hc. rewrite (Part000_dax fl Hs (Hcmds _ Hc)), (Hep He).
    destruct Hc as [-> | ->]; reflexivity.
  - split; [apply TryDax_reject_service|].
    split; [intros Hs Hc; apply TryDax_reject_command;
            [exact Hs | now apply commandMap_None]|].
    split; [intros Hlen; unfold TryDax.commandsMsg; now rewrite listOfKeys_length_ok|].
    split; [intros Hs Hc He; apply commandMap_keys in Hc;
            rewrite (TryDax_dax order fl Hs Hc), He; reflexivity|].
    split; [|split; [apply TryDax_accepts | apply messages_distinct_TryDax]].
    intros Hs He Hc. split.
    + rewrite (TryDax_dax order fl Hs (proj2 (commandMap_keys _) (Hcmds _ Hc))), (Hep He).
      reflexivity.
    + unfold TryDax.initTableClient. rewrite Hs. reflexivity.
Qed.

Lemma validate_rejections_witness :
  Part000.validate (sampleFlags "dax" "delete-table" "cluster:8111")
  = Some "service 'dax' does not support table operations, use service 'dynamodb'"
  /\ TryDax.validate sampleOrder (sampleFlags "dax" "scan" "")
     = Some "endpoint should be set for 'dax' service"
  /\ TryDax.validate sampleOrder (sampleFlags "redis" "scan" "")
     = Some "service should be one of [dynamodb | dax]".
Proof.
  split; [|split].
  - destruct (validate_rejections sampleOrder (sampleEnv okClient)
                (sampleFlags "dax" "delete-table" "cluster:8111"))
      as ((_ & _ & _ & H & _) & _).
    apply H; [reflexivity | discriminate | right; reflexivity].
  - destruct (validate_rejections sampleOrder (sampleEnv okClient)
                (sampleFlags "dax" "scan" "")) as (_ & (_ & _ & _ & H & _)).
    apply H; [reflexivity | apply contains_elem_of; reflexivity | reflexivity].
  - destruct (validate_rejections sampleOrder (sampleEnv okClient)
                (sampleFlags "redis" "scan" "")) as (_ & (H & _)).
    apply H. apply contains_not_elem_of. reflexivity.
Defined.

(** ** The exit status *)



(** *** Claim C1 *)

(** C1 asks for a non-zero exit status whenever validation or the executor
    fails.  try_dax.go does so (see [main_exit_status] below), the first file
    does not: on the command line -service redis -command scan its [main]
    writes the diagnostic of the failed validation and returns, and with a
    backend that fails during put-item it writes the diagnostic of the
    failed command and returns; in both runs the process ends with status 0. *)
Lemma part000_failure_exits_zero :
  Part000.validate (Part000.parseFlags (sampleArgs "redis" "scan" ""))
  = Some err_service
  /\ Part000.main (sampleArgs "redis" "scan" "") (sampleEnv okClient)
     = (stderrOnly ["invalid input: service should be one of [dynamodb | dax]" +:+ nl],
        Exit 0)
  /\ snd (Part000.executeCommand (sampleEnv failing37)
            (Part000.parseFlags (sampleArgs "dynamodb" "put-item" ""))
            failing37 start) = Err "backend down"
  /\ snd (Part000.main (sampleArgs "dynamodb" "put-item" "") (sampleEnv failing37))
     = Exit 0
  /\ stderr (fst (Part000.main (sampleArgs "dynamodb" "put-item" "")
                    (sampleEnv failing37)))
     = ["failed to execute command: backend down" +:+ nl].
Proof. vm_compute. repeat split. Qed.



(** A failing and a successful run of try_dax.go, computed. *)
Example trydax_runs :
  snd (TryDax.main sampleOrder (sampleArgs "dynamodb" "put-item" "")
         (sampleEnv failing37)) = Exit 1
  /\ stderr (fst (TryDax.main sampleOrder (sampleArgs "dynamodb" "put-item" "")
                    (sampleEnv failing37)))
     = ["failed to execute command: backend down" +:+ nl]
  /\ snd (TryDax.main sampleOrder (sampleArgs "dax" "query" "cluster:8111")
            (sampleEnv okClient)) = Exit 0
  /\ stdout (fst (TryDax.main sampleOrder (sampleArgs "dax" "query" "cluster:8111")
                    (sampleEnv okClient)))
     = [Timing 1000 40]
  /\ TryDax.main sampleOrder (sampleArgs "dax" "create-table" "cluster:8111")
       (sampleEnv okClient)
     = (stderrOnly ["failed to execute command: for table operations use service 'dynamodb'"
                    +:+ nl], Exit 1).
Proof. vm_compute. repeat split. Qed.

(** * Further properties of the two files *)

(** ** Every run of calls, whatever the client answers *)

Section AnyClient.

Variables (fl : Flags) (client : Client).

(** Along a list of requests either every call succeeds or there is a first
    call that fails. *)
Lemma first_failure reqs :
  forall h,
    (forall k r, reqs !! k = Some r ->
                 exists out, client (h ++ take k reqs) r = Ok out)
    \/ (exists n r e,
          reqs !! n = Some r
          /\ (forall k r', (k < n)%nat -> reqs !! k = Some r' ->
                           exists out, client (h ++ take k reqs) r' = Ok out)
          /\ client (h ++ take n reqs) r = Err e).
Proof.
  induction reqs as [|r0 reqs IH]; intros h.
  - left. intros k r Hk. destruct k; discriminate.
  - destruct (client h r0) as [out|e] eqn:H0.
    + destruct (IH (h ++ [r0])) as [Hall | (n & r & e & Hn & Hbefore & Hat)].
      * left. intros [|k] r Hk; simpl in *.
        -- injection Hk as <-. rewrite app_nil_r. eauto.
        -- specialize (Hall k r Hk). now rewrite <- app_assoc in Hall.
      * right. exists (S n), r, e. split; [exact Hn|]. split.
        -- intros [|k] r' Hlt Hk; simpl in *.
           ++ injection Hk as <-. rewrite app_nil_r. eauto.
           ++ specialize (Hbefore k r' ltac:(lia) Hk).
              now rewrite <- app_assoc in Hbefore.
        -- simpl. now rewrite <- app_assoc in Hat.
    + right. exists O, r0, e. split; [reflexivity|]. split; [intros; lia|].
      simpl. now rewrite app_nil_r.
Qed.

(** The two ways a run of calls can end. *)
Lemma callEach_cases reqs p :
  (exists p', callEach fl client reqs p = (p', Ok tt)
      /\ issued p' = issued p ++ reqs /\ sameStreams p p'
      /\ forall k r, reqs !! k = Some r ->
                     exists out, client (issued p ++ take k reqs) r = Ok out)
  \/ (exists p' n r e, callEach fl client reqs p = (p', Err e)
      /\ issued p' = issued p ++ take (S n) reqs /\ sameStreams p p'
      /\ reqs !! n = Some r
      /\ (forall k r', (k < n)%nat -> reqs !! k = Some r' ->
                       exists out, client (issued p ++ take k reqs) r' = Ok out)
      /\ client (issued p ++ take n reqs) r = Err e).
Proof.
  destruct (first_failure reqs (issued p)) as [Hall | (n & r & e & Hn & Hbefore & Hat)].
  - left. destruct (callEach_ok fl client reqs p Hall) as (p' & Hrun & Hiss & Hs).
    exists p'. auto.
  - right. destruct (callEach_err fl client reqs n p r e Hn Hbefore Hat)
      as (p' & Hrun & Hiss & Hs).
    exists p', n, r, e. auto 7.
Qed.

(** What a run of calls prints. *)
Lemma callEach_stdout reqs :
  forall p,
    stdout (fst (callEach fl client reqs p))
    = stdout p ++ (if verbose fl
                   then Verbose <$> outputs client (issued p) reqs else []).
Proof.
  induction reqs as [|r reqs IH]; intros p.
  - simpl. destruct (verbose fl); now rewrite app_nil_r.
  - cbn [callEach outputs]. unfold bind at 1. unfold callOne, bind, call, writeVerbose.
    destruct (client (issued p) r) as [out|e].
    + destruct (verbose fl) eqn:Hv; unfold writeStdout, ret; rewrite IH; simpl.
      * now rewrite <- app_assoc.
      * reflexivity.
    + simpl. destruct (verbose fl); now rewrite app_nil_r.
Qed.

End AnyClient.

Section AnyRun.

Variables (env : Env) (fl : Flags) (client : Client).

Lemma loopBody_shape (l : Loop) :
  exists loop,
    (forall q, loop q = callEach fl client (loopRequests l) q)
    /\ loopBody l env fl client = if isTimed l then timed env loop else loop.
Proof.
  destruct l; unfold loopBody, loopRequests, isTimed.
  - exists (putItemBody fl client). split; [apply putItemBody_callEach | reflexivity].
  - eexists. split; [apply getItemLoop_callEach | reflexivity].
  - exists (forRange 0 iterations (fun _ =>
              out <- call client (Query queryInput) ;; writeVerbose fl out)).
    split; [apply forRange_const | reflexivity].
  - exists (forRange 0 iterations (fun _ =>
              out <- call client (Scan scanInput) ;; writeVerbose fl out)).
    split; [apply forRange_const | reflexivity].
Qed.

Lemma timed_unfold (loop : M unit) p :
  timed env loop p
  = match loop (fst (now env p)) with
    | (p1, Ok _) =>
        (fst (writeStdout
                (timingLine (clock env (clockReads p1) - clock env (clockReads p)))
                (fst (now env p1))), Ok tt)
    | (p1, Err e) => (p1, Err e)
    end.
Proof.
  unfold timed, bind, since, bind, now, ret. simpl.
  destruct (loop _) as [p1 [[]|e]]; reflexivity.
Qed.

(** Every loop ends in one of two ways: all its calls succeeded, or a first
    call failed and its error is the result. *)
Lemma loopBody_cases (l : Loop) p :
  (exists p', loopBody l env fl client p = (p', Ok tt)
      /\ issued p' = issued p ++ loopRequests l
      /\ stderr p' = stderr p
      /\ stdout p'
         = stdout p ++ verboseLines fl client (issued p) (loopRequests l)
           ++ (if isTimed l
               then [timingLine (clock env (S (clockReads p))
                                 - clock env (clockReads p))]
               else [])
      /\ forall k r, loopRequests l !! k = Some r ->
           exists out, client (issued p ++ take k (loopRequests l)) r = Ok out)
  \/ (exists p' n r e, loopBody l env fl client p = (p', Err e)
      /\ issued p' = issued p ++ take (S n) (loopRequests l)
      /\ stderr p' = stderr p
      /\ stdout p' = stdout p ++ verboseLines fl client (issued p) (loopRequests l)
      /\ loopRequests l !! n = Some r
      /\ (forall k r', (k < n)%nat -> loopRequests l !! k = Some r' ->
            exists out, client (issued p ++ take k (loopRequests l)) r' = Ok out)
      /\ client (issued p ++ take n (loopRequests l)) r = Err e).
Proof.
  destruct (loopBody_shape l) as (loop & Hloop & ->).
  unfold verboseLines.
  destruct (isTimed l).
  - rewrite timed_unfold, Hloop.
    set (p0 := fst (now env p)).
    pose proof (callEach_stdout fl client (loopRequests l) p0) as Hout.
    destruct (callEach_cases fl client (loopRequests l) p0)
      as [(p1 & Hrun & Hiss & (Herr & Hclk) & Hall)
         |(p1 & n & r & e & Hrun & Hiss & (Herr & Hclk) & Hn & Hbefore & Hat)];
      rewrite Hrun in *; simpl in Hout.
    + left. eexists. split; [reflexivity|]. simpl.
      rewrite Hiss, Herr, Hclk, Hout, <- app_assoc. auto.
    + right. exists p1, n, r, e. split; [reflexivity|]. rewrite Hiss, Herr, Hout. auto 7.
  - pose proof (callEach_stdout fl client (loopRequests l) p) as Hout.
    rewrite Hloop.
    destruct (callEach_cases fl client (loopRequests l) p)
      as [(p1 & Hrun & Hiss & (Herr & Hclk) & Hall)
         |(p1 & n & r & e & Hrun & Hiss & (Herr & Hclk) & Hn & Hbefore & Hat)];
      rewrite Hrun in *; simpl in Hout.
    + left. exists p1. rewrite app_nil_r. auto.
    + right. exists p1, n, r, e. auto 8.
Qed.

End AnyRun.

(** ** The looping executors on any backend *)

Lemma loopBody_outcome l env fl client :
  LoopOutcome client (loopRequests l) (loopBody l env fl client start).
Proof.
  destruct (loopBody_cases env fl client l start)
    as [(p & Hrun & Hiss & _ & _ & Hall)
       |(p & n & r & e & Hrun & Hiss & _ & _ & Hn & Hbefore & Hat)];
    rewrite Hrun; simpl in *.
  - left. split; [reflexivity|]. split; [exact Hiss|].
    intros k Hk. unfold answer.
    destruct (lookup_lt_is_Some_2 _ k Hk) as [r Hr]. rewrite Hr.
    destruct (Hall k r Hr) as [out ->]. eauto.
  - right. exists (S n), e. split; [reflexivity|]. split; [|exact Hiss].
    unfold NthCallFails, answer. replace (S n - 1)%nat with n by lia.
    split; [lia|]. split.
    + intros k Hk.
      destruct (lookup_lt_is_Some_2 (loopRequests l) k) as [r' Hr'].
      { apply lookup_lt_Some in Hn. lia. }
      rewrite Hr'. destruct (Hbefore k r' Hk Hr') as [out ->]. eauto.
    + rewrite Hn, Hat. reflexivity.
Qed.

(** X1: whatever the backend answers, each looping executor (put-item,
    get-item, query, scan) of either file ends in one of two ways: it returns
    nil, having sent its whole request sequence, all the calls having
    succeeded; or it returns the error of its n-th call, the first one to
    fail, having sent the first n requests and no more. *)
Theorem executor_outcome_complete
  (l : Loop) (env : Env) (fl : Flags) (client : Client) :
  LoopOutcome client (loopRequests l) (executorPart000 l env fl client start)
  /\ (TryDax.initItemClient env fl = Ok client ->
      LoopOutcome client (loopRequests l) (executorTryDax l env fl start)).
Proof.
  split.
  - rewrite executorPart000_body. apply loopBody_outcome.
  - intros Hinit. rewrite (executorTryDax_body l env fl client Hinit).
    apply loopBody_outcome.
Qed.

Lemma executor_outcome_complete_witness :
  TryDax.initItemClient (sampleEnv failing37)
    (sampleFlags "dynamodb" "scan" "") = Ok failing37
  /\ LoopOutcome failing37 (loopRequests LoopScan)
       (executorTryDax LoopScan (sampleEnv failing37)
          (sampleFlags "dynamodb" "scan" "") start).
Proof.
  split; [reflexivity|].
  exact (proj2 (executor_outcome_complete LoopScan (sampleEnv failing37)
                  (sampleFlags "dynamodb" "scan" "") failing37) eq_refl).
Defined.

(** A scan against a backend that is down: the first call fails. *)
Example scan_on_down_backend :
  Part000.executeScan (sampleEnv (downClient "no route"))
    (sampleFlags "dynamodb" "scan" "") (downClient "no route") start
  = ({| issued := [Scan scanInput]; stdout := []; stderr := []; clockReads := 1 |},
     Err "no route").
Proof. reflexivity. Qed.

(** ** What the executors print *)

Lemma outputs_length_ok client reqs :
  forall h,
    (forall k r, reqs !! k = Some r ->
                 exists out, client (h ++ take k reqs) r = Ok out) ->
    length (outputs client h reqs) = length reqs.
Proof.
  induction reqs as [|r0 reqs IH]; intros h Hall; [reflexivity|]. simpl.
  destruct (Hall O r0 eq_refl) as [out Hout]. simpl in Hout.
  rewrite app_nil_r in Hout. rewrite Hout. simpl. f_equal.
  apply IH. intros k r Hk. rewrite <- app_assoc. apply (Hall (S k) r Hk).
Qed.

Lemma outputs_length_err client reqs :
  forall h n r e,
    reqs !! n = Some r ->
    (forall k r', (k < n)%nat -> reqs !! k = Some r' ->
                  exists out, client (h ++ take k reqs) r' = Ok out) ->
    client (h ++ take n reqs) r = Err e ->
    length (outputs client h reqs) = n.
Proof.
  induction reqs as [|r0 reqs IH]; intros h n r e Hn Hbefore Hat; [discriminate|].
  destruct n as [|n]; simpl in *.
  - injection Hn as ->. rewrite app_nil_r in Hat. now rewrite Hat.
  - destruct (Hbefore O r0 ltac:(lia) eq_refl) as [out Hout]. simpl in Hout.
    rewrite app_nil_r in Hout. rewrite Hout. simpl. f_equal.
    apply (IH (h ++ [r0]) n r e Hn).
    + intros k r' Hk Hr'. rewrite <- app_assoc. apply (Hbefore (S k) r'); [lia|exact Hr'].
    + now rewrite <- app_assoc.
Qed.

Lemma loopBody_prints l env fl client :
  RunPrints env fl client l (loopBody l env fl client start).
Proof.
  unfold RunPrints.
  destruct (loopBody_cases env fl client l start)
    as [(p & Hrun & Hiss & _ & Hout & Hall)
       |(p & n & r & e & Hrun & Hiss & _ & Hout & Hn & Hbefore & Hat)];
    rewrite Hrun; simpl in *.
  - split; [exact Hout|]. rewrite Hiss. now apply outputs_length_ok.
  - rewrite app_nil_r. split; [exact Hout|].
    rewrite Hiss, length_take.
    apply lookup_lt_Some in Hn as Hlt.
    rewrite (outputs_length_err client _ [] n r e Hn Hbefore Hat). lia.
Qed.

(** X2: what a looping executor of either file writes to the standard
    output.  With the verbose flag it prints one line per call that
    succeeded, carrying the output of that call, in the order of the calls;
    without it the calls print nothing.  get-item, query and scan then print
    the timing line, for the time elapsed between their two readings of the
    clock, when they return nil; when a call fails no timing line is
    printed.  put-item never prints a timing line. *)
Theorem executor_prints
  (l : Loop) (env : Env) (fl : Flags) (client : Client) :
  RunPrints env fl client l (executorPart000 l env fl client start)
  /\ (TryDax.initItemClient env fl = Ok client ->
      RunPrints env fl client l (executorTryDax l env fl start)).
Proof.
  split.
  - rewrite executorPart000_body. apply loopBody_prints.
  - intros Hinit. rewrite (executorTryDax_body l env fl client Hinit).
    apply loopBody_prints.
Qed.

Lemma executor_prints_witness :
  TryDax.initItemClient (sampleEnv okClient) (sampleFlags "dax" "query" "cluster:8111")
  = Ok okClient
  /\ RunPrints (sampleEnv okClient) (sampleFlags "dax" "query" "cluster:8111")
       okClient LoopQuery
       (executorTryDax LoopQuery (sampleEnv okClient)
          (sampleFlags "dax" "query" "cluster:8111") start).
Proof.
  split; [reflexivity|].
  exact (proj2 (executor_prints LoopQuery (sampleEnv okClient)
                  (sampleFlags "dax" "query" "cluster:8111") okClient) eq_refl).
Defined.

(** A verbose query whose third call fails: two lines, no timing. *)
Example verbose_query_fails_at_3 :
  stdout (fst (Part000.executeQuery (sampleEnv (failNth 3 "throttled"))
                 {| service := "dynamodb"; region := "us-east-1"; endpoint := "";
                    command := "query"; verbose := true |}
                 (failNth 3 "throttled") start))
  = [Verbose "ok"; Verbose "ok"].
Proof. reflexivity. Qed.

(** ** Scan *)

Lemma scanBody_ok env fl client p :
  AllSucceed client ->
  exists p', scanBody env fl client p = (p', Ok tt)
    /\ issued p' = issued p ++ scanRequests
    /\ stderr p' = stderr p
    /\ last (stdout p')
       = Some (timingLine (clock env (S (clockReads p)) - clock env (clockReads p))).
Proof.
  apply (timed_ok env fl client). intros q. apply forRange_const.
Qed.

(** X3: on a client all of whose calls succeed, the scan executor of either
    file returns nil after sending exactly 25 Scan requests, each of them the
    scan of the whole table TryDaxGoTable, and the last line it prints is the
    timing line with the elapsed time d and the average d / 25 (truncated). *)
Theorem scan_issues_25 (env : Env) (fl : Flags) (client : Client) :
  AllSucceed client ->
  (exists p, Part000.executeScan env fl client start = (p, Ok tt)
        /\ issued p = replicate 25 (Scan {| sc_TableName := "TryDaxGoTable" |})
        /\ last (stdout p)
           = Some (Timing (clock env 1 - clock env 0)
                     (Z.quot (clock env 1 - clock env 0) 25)))
  /\ (TryDax.initItemClient env fl = Ok client ->
      exists p, TryDax.executeScan env fl start = (p, Ok tt)
        /\ issued p = replicate 25 (Scan {| sc_TableName := "TryDaxGoTable" |})
        /\ last (stdout p)
           = Some (Timing (clock env 1 - clock env 0)
                     (Z.quot (clock env 1 - clock env 0) 25))).
Proof.
  intros Hok.
  destruct (scanBody_ok env fl client start Hok) as (p & Hrun & Hiss & _ & Hout).
  simpl in Hiss, Hout.
  split; [exists p; auto|].
  intros Hinit. exists p.
  pose proof (executorTryDax_body LoopScan env fl client Hinit) as Heq.
  unfold executorTryDax in Heq. rewrite Heq. auto.
Qed.

Lemma scan_issues_25_witness :
  AllSucceed okClient
  /\ exists p, Part000.executeScan (sampleEnv okClient)
                 (sampleFlags "dynamodb" "scan" "") okClient start = (p, Ok tt)
       /\ issued p = replicate 25 (Scan {| sc_TableName := "TryDaxGoTable" |})
       /\ last (stdout p)
          = Some (Timing (clock (sampleEnv okClient) 1 - clock (sampleEnv okClient) 0)
                    (Z.quot (clock (sampleEnv okClient) 1
                             - clock (sampleEnv okClient) 0) 25)).
Proof.
  split; [exact okClient_succeeds|].
  exact (proj1 (scan_issues_25 (sampleEnv okClient)
                  (sampleFlags "dynamodb" "scan" "") okClient okClient_succeeds)).
Defined.

(** ** The table executors *)

Lemma oneCall_body fl client r :
  (out <- call client r ;; writeVerbose fl out) start = oneCallRun fl client r.
Proof.
  unfold bind, call, writeVerbose, oneCallRun. simpl.
  destruct (client [] r) as [out|e]; [|reflexivity].
  destruct (verbose fl); reflexivity.
Qed.

(** X4: the create-table and delete-table executors make one call and no
    more.  From the start of a process, each sends its one request (for
    delete-table: the deletion of table TryDaxGoTable), prints the output
    when the call succeeds and the verbose flag is set, writes nothing to the
    error stream, and returns the error of the call if it failed, nil
    otherwise.  In try_dax.go this holds once the table client is built. *)
Theorem table_executors_one_call (env : Env) (fl : Flags) (client : Client) :
  Part000.executeCreateTable fl client start
  = oneCallRun fl client (CreateTable createTableInput)
  /\ Part000.executeDeleteTable fl client start
     = oneCallRun fl client (DeleteTable {| dt_TableName := "TryDaxGoTable" |})
  /\ (TryDax.initTableClient env fl = Ok client ->
      TryDax.executeCreateTable env fl start
      = oneCallRun fl client (CreateTable createTableInput)
      /\ TryDax.executeDeleteTable env fl start
         = oneCallRun fl client (DeleteTable {| dt_TableName := "TryDaxGoTable" |})).
Proof.
  split; [apply oneCall_body|]. split; [apply oneCall_body|].
  intros Hinit. unfold TryDax.executeCreateTable, TryDax.executeDeleteTable.
  rewrite Hinit. split; apply oneCall_body.
Qed.

Lemma table_executors_one_call_witness :
  TryDax.initTableClient (sampleEnv (downClient "access denied"))
    (sampleFlags "dynamodb" "delete-table" "") = Ok (downClient "access denied")
  /\ TryDax.executeDeleteTable (sampleEnv (downClient "access denied"))
       (sampleFlags "dynamodb" "delete-table" "") start
     = oneCallRun (sampleFlags "dynamodb" "delete-table" "")
         (downClient "access denied")
         (DeleteTable {| dt_TableName := "TryDaxGoTable" |}).
Proof.
  split; [reflexivity|].
  exact (proj2 (proj2 (proj2 (table_executors_one_call
    (sampleEnv (downClient "access denied"))
    (sampleFlags "dynamodb" "delete-table" "") (downClient "access denied")))
    eq_refl)).
Defined.

(** ** The choice of the client *)

(** X5: after a successful validation there are two cases only.  Either the
    service is dax, the endpoint is not empty, and the item client is the DAX
    client made for that endpoint and the region; or the service is dynamodb
    and the client is the DynamoDB client of the region (whatever the
    endpoint), with the error of the session if no session can be made. *)
Theorem validated_client_choice (order : list string) (env : Env) (fl : Flags) :
  (Part000.validate fl = None ->
     (service fl = "dax" /\ endpoint fl <> ""
      /\ Part000.initClient env fl = daxNew env (endpoint fl) (region fl))
     \/ (service fl = "dynamodb"
         /\ Part000.initClient env fl
            = match newSession env (Some (region fl)) with
              | Some e => Err e
              | None => Ok (dynamodbNew env (region fl))
              end))
  /\ (TryDax.validate order fl = None ->
     (service fl = "dax" /\ endpoint fl <> ""
      /\ TryDax.initItemClient env fl = daxNew env (endpoint fl) (region fl))
     \/ (service fl = "dynamodb"
         /\ TryDax.initItemClient env fl
            = match newSession env (Some (region fl)) with
              | Some e => Err e
              | None => Ok (dynamodbNew env (region fl))
              end
         /\ TryDax.initTableClient env fl = TryDax.initItemClient env fl)).
Proof.
  split.
  - intros Hv. apply Part000_accepts in Hv as (Hs & _ & Hdax).
    apply services_cases in Hs as [Hs|Hs].
    + right. split; [exact Hs|]. unfold Part000.initClient. rewrite Hs. reflexivity.
    + left. destruct (Hdax Hs) as (He & _). split; [exact Hs|]. split; [exact He|].
      unfold Part000.initClient. rewrite Hs. reflexivity.
  - intros Hv. apply TryDax_accepts in Hv as (Hs & _ & Hdax).
    apply services_cases in Hs as [Hs|Hs].
    + right. split; [exact Hs|].
      unfold TryDax.initItemClient, TryDax.initTableClient. rewrite Hs. auto.
    + left. split; [exact Hs|]. split; [exact (Hdax Hs)|].
      unfold TryDax.initItemClient. rewrite Hs. reflexivity.
Qed.

Lemma validated_client_choice_witness :
  Part000.validate (sampleFlags "dax" "scan" "cluster:8111") = None
  /\ Part000.initClient (sampleEnv okClient) (sampleFlags "dax" "scan" "cluster:8111")
     = daxNew (sampleEnv okClient) "cluster:8111" "us-east-1".
Proof.
  split; [reflexivity|].
  destruct (proj1 (validated_client_choice sampleOrder (sampleEnv okClient)
                     (sampleFlags "dax" "scan" "cluster:8111")) eq_refl)
    as [(_ & _ & H) | (H & _)]; [exact H | discriminate H].
Defined.

(** ** The dispatch table, entry by entry *)

Lemma commandMap_lookup cmd (exec : TryDax.Executor) :
  TryDax.commandMap !! cmd = Some exec ->
  (cmd = "create-table" /\ exec = TryDax.executeCreateTable)
  \/ (cmd = "delete-table" /\ exec = TryDax.executeDeleteTable)
  \/ (cmd = "put-item" /\ exec = executorTryDax LoopPutItem)
  \/ (cmd = "get-item" /\ exec = executorTryDax LoopGetItem)
  \/ (cmd = "query" /\ exec = executorTryDax LoopQuery)
  \/ (cmd = "scan" /\ exec = executorTryDax LoopScan).
Proof.
  unfold TryDax.commandMap. rewrite !lookup_insert, lookup_empty.
  repeat case_decide; intros [= <-]; subst; tauto.
Qed.

Lemma isTableCommand_true cmd :
  isTableCommand cmd = true <-> cmd = "create-table" \/ cmd = "delete-table".
Proof.
  unfold isTableCommand. rewrite orb_true_iff, !String.eqb_eq. tauto.
Qed.

(** ** Failures before the first request *)



(** X7: try_dax.go needs the instance metadata before it looks at the
    command line.  If the first session cannot be made, or if the region
    cannot be detected, the process writes that error and exits with status
    1 whatever the flags are: a -region flag does not help, the flags are
    not validated, no client is built and no request is sent. *)
Theorem detection_failure_is_fatal
  (order : list string) (args : Args) (env : Env) (e : error) :
  (newSession env None = Some e ->
     TryDax.main order args env = (stderrOnly [e +:+ nl], Exit 1))
  /\ (newSession env None = None -> mdRegion env = Err e ->
        TryDax.main order args env
        = (stderrOnly ["Unable to detect region: " +:+ e +:+ nl], Exit 1)).
Proof.
  split.
  - intros Hs. unfold TryDax.main, TryDax.initializeOptions. rewrite Hs. reflexivity.
  - intros Hs Hr. unfold TryDax.main, TryDax.initializeOptions. rewrite Hs, Hr.
    reflexivity.
Qed.

Lemma detection_failure_is_fatal_witness :
  TryDax.main sampleOrder
    {| arg_service := Some "dynamodb"; arg_region := Some "eu-west-1";
       arg_endpoint := None; arg_command := Some "scan"; arg_verbose := None |}
    (noMetadataEnv "not on EC2")
  = (stderrOnly ["Unable to detect region: " +:+ "not on EC2" +:+ nl], Exit 1)
  /\ TryDax.main sampleOrder (sampleArgs "redis" "drop" "")
       (noSessionEnv "no credentials")
     = (stderrOnly ["no credentials" +:+ nl], Exit 1).
Proof.
  split.
  - exact (proj2 (detection_failure_is_fatal sampleOrder _
                    (noMetadataEnv "not on EC2") "not on EC2") eq_refl eq_refl).
  - exact (proj1 (detection_failure_is_fatal sampleOrder _
                    (noSessionEnv "no credentials") "no credentials") eq_refl).
Defined.

(** ** The error stream and the exit status of try_dax.go *)





(** ** The table of the requests *)

Lemma loopRequests_table l :
  Forall (fun r => tableOf r = "TryDaxGoTable") (loopRequests l).
Proof.
  apply Forall_forall. intros r Hr.
  destruct l; unfold loopRequests, putItemRequests, getItemRequests,
    queryRequests, scanRequests in Hr.
  - apply list_elem_of_bind in Hr as (i & Hr & _).
    apply list_elem_of_bind in Hr as (j & Hr & _).
    apply list_elem_of_singleton in Hr as ->. reflexivity.
  - apply list_elem_of_bind in Hr as (c & Hr & _).
    apply list_elem_of_bind in Hr as (i & Hr & _).
    apply list_elem_of_bind in Hr as (j & Hr & _).
    apply list_elem_of_singleton in Hr as ->. reflexivity.
  - apply elem_of_replicate in Hr as [-> _]. reflexivity.
  - apply elem_of_replicate in Hr as [-> _]. reflexivity.
Qed.

Lemma loopBody_table l env fl client :
  Forall (fun r => tableOf r = "TryDaxGoTable")
         (issued (fst (loopBody l env fl client start))).
Proof.
  pose proof (loopRequests_table l) as Hall.
  destruct (loopBody_cases env fl client l start)
    as [(p' & Hrun & Hiss & _)|(p' & n & r & e & Hrun & Hiss & _)];
    rewrite Hrun; simpl in *; rewrite Hiss.
  - exact Hall.
  - now apply Forall_take.
Qed.

Lemma oneCallRun_table fl client r :
  tableOf r = "TryDaxGoTable" ->
  Forall (fun r => tableOf r = "TryDaxGoTable") (issued (fst (oneCallRun fl client r))).
Proof.
  intros Hr. unfold oneCallRun.
  destruct (client [] r); simpl; repeat constructor; exact Hr.
Qed.

Lemma executeCommand_table env fl client :
  Forall (fun r => tableOf r = "TryDaxGoTable")
         (issued (fst (Part000.executeCommand env fl client start))).
Proof.
  unfold Part000.executeCommand.
  destruct (String.eqb (command fl) "create-table").
  { unfold Part000.executeCreateTable, createTableBody. rewrite oneCall_body.
    now apply oneCallRun_table. }
  destruct (String.eqb (command fl) "put-item").
  { exact (loopBody_table LoopPutItem env fl client). }
  destruct (String.eqb (command fl) "get-item").
  { exact (loopBody_table LoopGetItem env fl client). }
  destruct (String.eqb (command fl) "query").
  { exact (loopBody_table LoopQuery env fl client). }
  destruct (String.eqb (command fl) "scan").
  { exact (loopBody_table LoopScan env fl client). }
  destruct (String.eqb (command fl) "delete-table").
  { unfold Part000.executeDeleteTable, deleteTableBody. rewrite oneCall_body.
    now apply oneCallRun_table. }
  constructor.
Qed.

Lemma executor_table cmd (exec : TryDax.Executor) env fl :
  TryDax.commandMap !! cmd = Some exec ->
  Forall (fun r => tableOf r = "TryDaxGoTable") (issued (fst (exec env fl start))).
Proof.
  intros Hk.
  destruct (commandMap_lookup _ _ Hk)
    as [[_ ->]|[[_ ->]|[[_ ->]|[[_ ->]|[[_ ->]|[_ ->]]]]]].
  - unfold TryDax.executeCreateTable.
    destruct (TryDax.initTableClient env fl) as [c|e]; [|constructor].
    unfold createTableBody. rewrite oneCall_body. now apply oneCallRun_table.
  - unfold TryDax.executeDeleteTable.
    destruct (TryDax.initTableClient env fl) as [c|e]; [|constructor].
    unfold deleteTableBody. rewrite oneCall_body. now apply oneCallRun_table.
  - destruct (TryDax.initItemClient env fl) as [c|e] eqn:Hc.
    + rewrite (executorTryDax_body _ env fl c Hc). apply loopBody_table.
    + unfold executorTryDax, TryDax.executePutItem, TryDax.withItemClient.
      rewrite Hc. constructor.
  - destruct (TryDax.initItemClient env fl) as [c|e] eqn:Hc.
    + rewrite (executorTryDax_body _ env fl c Hc). apply loopBody_table.
    + unfold executorTryDax, TryDax.executeGetItem, TryDax.withItemClient.
      rewrite Hc. constructor.
  - destruct (TryDax.initItemClient env fl) as [c|e] eqn:Hc.
    + rewrite (executorTryDax_body _ env fl c Hc). apply loopBody_table.
    + unfold executorTryDax, TryDax.executeQuery, TryDax.withItemClient.
      rewrite Hc. constructor.
  - destruct (TryDax.initItemClient env fl) as [c|e] eqn:Hc.
    + rewrite (executorTryDax_body _ env fl c Hc). apply loopBody_table.
    + unfold executorTryDax, TryDax.executeScan, TryDax.withItemClient.
      rewrite Hc. constructor.
Qed.

(** X9: whatever the command line, the environment and the answers of the
    backend, every request that a run of either file sends addresses the
    table TryDaxGoTable; no other table is ever read, written, created or
    deleted. *)
Theorem requests_address_the_fixed_table
  (order : list string) (args : Args) (env : Env) :
  Forall (fun r => tableOf r = "TryDaxGoTable") (issued (fst (Part000.main args env)))
  /\ Forall (fun r => tableOf r = "TryDaxGoTable")
            (issued (fst (TryDax.main order args env))).
Proof.
  split.
  - unfold Part000.main.
    destruct (Part000.validate (Part000.parseFlags args)); [constructor|].
    destruct (Part000.initClient env (Part000.parseFlags args)) as [c|e];
      [|constructor].
    pose proof (executeCommand_table env (Part000.parseFlags args) c) as H.
    destruct (Part000.executeCommand env (Part000.parseFlags args) c start)
      as [p [[]|e]]; exact H.
  - unfold TryDax.main.
    destruct (TryDax.initializeOptions order args env start) as [p [fl|e]] eqn:Hinit.
    + destruct (initializeOptions_ok _ _ _ _ _ _ Hinit) as (-> & _).
      destruct (TryDax.commandMap !! command fl) as [exec|] eqn:Hk; [|constructor].
      pose proof (executor_table _ exec env fl Hk) as H. unfold TryDax.invoke.
      destruct (exec env fl start) as [p' [[]|e]]; exact H.
    + destruct (initializeOptions_err _ _ _ _ _ Hinit) as (Hiss & _).
      simpl. rewrite Hiss. constructor.
Qed.

(** ** The two files side by side *)

Lemma executeCommand_at env fl client cmd :
  command fl = cmd ->
  Part000.executeCommand env fl client
  = if String.eqb cmd "create-table" then Part000.executeCreateTable fl client
    else if String.eqb cmd "put-item" then Part000.executePutItem fl client
    else if String.eqb cmd "get-item" then Part000.executeGetItem env fl client
    else if String.eqb cmd "query" then Part000.executeQuery env fl client
    else if String.eqb cmd "scan" then Part000.executeScan env fl client
    else if String.eqb cmd "delete-table" then Part000.executeDeleteTable fl client
    else fail ("unknown command " +:+ cmd).
Proof. intros <-. reflexivity. Qed.

(** X10: the two files run the same executor on the same client.  When the
    command is a key of [commandMap], the client of the first file is built,
    and the flags are not service dax with a table command, the function that
    try_dax.go finds in its table does, from any state, exactly what
    [executeCommand] of the first file does with that client: same requests,
    same output, same result. *)
Theorem variants_run_same_executor
  (env : Env) (fl : Flags) (client : Client) (exec : TryDax.Executor) (p : Proc) :
  TryDax.commandMap !! command fl = Some exec ->
  Part000.initClient env fl = Ok client ->
  (service fl = "dax" -> isTableCommand (command fl) = false) ->
  exec env fl p = Part000.executeCommand env fl client p.
Proof.
  intros Hk Hc Hdax.
  assert (Hitem : TryDax.initItemClient env fl = Ok client) by exact Hc.
  assert (Htable : isTableCommand (command fl) = true ->
                   TryDax.initTableClient env fl = Ok client).
  { intros Ht. unfold TryDax.initTableClient. unfold Part000.initClient in Hc.
    destruct (String.eqb_spec (service fl) "dax") as [Hs|Hs]; [|exact Hc].
    rewrite (Hdax Hs) in Ht. discriminate. }
  destruct (commandMap_lookup _ _ Hk)
    as [[Hcmd ->]|[[Hcmd ->]|[[Hcmd ->]|[[Hcmd ->]|[[Hcmd ->]|[Hcmd ->]]]]]];
    rewrite (executeCommand_at env fl client _ Hcmd);
    cbv beta iota;
    try (rewrite (executorTryDax_body _ env fl client Hitem); reflexivity).
  - unfold TryDax.executeCreateTable. rewrite Htable by (now rewrite Hcmd).
    reflexivity.
  - unfold TryDax.executeDeleteTable. rewrite Htable by (now rewrite Hcmd).
    reflexivity.
Qed.

Lemma variants_run_same_executor_witness :
  TryDax.commandMap !! command (sampleFlags "dax" "query" "cluster:8111")
  = Some TryDax.executeQuery
  /\ TryDax.executeQuery (sampleEnv failing37)
       (sampleFlags "dax" "query" "cluster:8111") start
     = Part000.executeCommand (sampleEnv failing37)
         (sampleFlags "dax" "query" "cluster:8111") failing37 start.
Proof.
  split; [reflexivity|].
  apply (variants_run_same_executor (sampleEnv failing37)
           (sampleFlags "dax" "query" "cluster:8111") failing37
           TryDax.executeQuery start); reflexivity.
Defined.

(** X11: [executeCommand] of the first file, given a command outside the
    six known ones, returns the error "unknown command <command>" without
    sending a request or writing anything.  After a successful validation
    that branch is dead: the command is one of the six, and [executeCommand]
    is the executor of that name. *)
Theorem execute_command_unknown
  (env : Env) (fl : Flags) (client : Client) (p : Proc) :
  (command fl ∉ Part000.commands ->
     Part000.executeCommand env fl client p
     = (p, Err ("unknown command " +:+ command fl)))
  /\ (Part000.validate fl = None ->
      (command fl = "create-table"
       /\ Part000.executeCommand env fl client = Part000.executeCreateTable fl client)
      \/ (command fl = "put-item"
          /\ Part000.executeCommand env fl client = Part000.executePutItem fl client)
      \/ (command fl = "get-item"
          /\ Part000.executeCommand env fl client
             = Part000.executeGetItem env fl client)
      \/ (command fl = "query"
          /\ Part000.executeCommand env fl client = Part000.executeQuery env fl client)
      \/ (command fl = "scan"
          /\ Part000.executeCommand env fl client = Part000.executeScan env fl client)
      \/ (command fl = "delete-table"
          /\ Part000.executeCommand env fl client
             = Part000.executeDeleteTable fl client)).
Proof.
  split.
  - intros Hc. unfold Part000.commands in Hc.
    rewrite !not_elem_of_cons in Hc.
    destruct Hc as (H1 & H2 & H3 & H4 & H5 & H6 & _).
    unfold Part000.executeCommand.
    repeat match goal with
           | H : command fl <> ?c |- context [String.eqb (command fl) ?c] =>
               rewrite (proj2 (String.eqb_neq (command fl) c) H)
           end.
    reflexivity.
  - intros Hv. apply Part000_accepts in Hv as (_ & Hc & _).
    unfold Part000.commands in Hc. rewrite !elem_of_cons, elem_of_nil in Hc.
    destruct Hc as [Hc|[Hc|[Hc|[Hc|[Hc|[Hc|[]]]]]]];
      rewrite (executeCommand_at env fl client _ Hc); cbv beta iota; tauto.
Qed.

Lemma execute_command_unknown_witness :
  Part000.executeCommand (sampleEnv okClient) (sampleFlags "dynamodb" "drop" "")
    okClient start
  = (start, Err "unknown command drop")
  /\ Part000.validate (sampleFlags "dynamodb" "drop" "") <> None.
Proof.
  split; [|discriminate].
  apply (proj1 (execute_command_unknown (sampleEnv okClient)
                  (sampleFlags "dynamodb" "drop" "") okClient start)).
  apply contains_not_elem_of. reflexivity.
Defined.

(** ** The keys of the workload *)

Lemma atoi_itoa n : atoi (itoa n) = Some n.
Proof.
  unfold atoi, itoa.
  assert (Hn : Nat.to_uint n <> Decimal.Nil).
  { intros E. pose proof (Unsigned.of_to n) as Hof. rewrite E in Hof.
    simpl in Hof. subst n. discriminate E. }
  rewrite (NilZero.usu _ Hn). simpl. now rewrite Unsigned.of_to.
Qed.

Lemma itoa_inj n m : itoa n = itoa m -> n = m.
Proof.
  intros H. apply (f_equal atoi) in H. rewrite !atoi_itoa in H. congruence.
Qed.

Lemma primaryKey_inj i j i' j' :
  primaryKey (pi_Item (putItemInput i j)) = primaryKey (pi_Item (putItemInput i' j')) ->
  i = i' /\ j = j'.
Proof.
  unfold primaryKey.
  change (pi_Item (putItemInput i j) !! "pk")
    with (Some (attrS ("key_" +:+ itoa i))).
  change (pi_Item (putItemInput i j) !! "sk") with (Some (attrN (itoa j))).
  change (pi_Item (putItemInput i' j') !! "pk")
    with (Some (attrS ("key_" +:+ itoa i'))).
  change (pi_Item (putItemInput i' j') !! "sk") with (Some (attrN (itoa j'))).
  intros [= Hpk Hsk]. split; apply itoa_inj; assumption.
Qed.

Lemma putItemRequests_rank a :
  (a < 100)%nat ->
  putItemRequests !! a = Some (PutItem (putItemInput (a / 10) (a mod 10))).
Proof.
  intros Ha. rewrite (Nat.div_mod_eq a 10) at 1.
  apply (lookup_grid (fun i j => PutItem (putItemInput i j)) 10 10).
  - apply Nat.Div0.div_lt_upper_bound. lia.
  - apply Nat.mod_upper_bound. lia.
Qed.

(** X12: put-item writes 100 different items.  Two items of the grid with
    the same primary key (pk, sk) come from the same (i, j), for any i and
    j; so two requests of different ranks in the sequence of put-item carry
    different primary keys, and no request of the run overwrites the item of
    another. *)
Theorem put_item_keys_distinct :
  (forall i j i' j',
     primaryKey (pi_Item (putItemInput i j))
     = primaryKey (pi_Item (putItemInput i' j')) ->
     i = i' /\ j = j')
  /\ (forall a b x y,
        putItemRequests !! a = Some (PutItem x) ->
        putItemRequests !! b = Some (PutItem y) ->
        primaryKey (pi_Item x) = primaryKey (pi_Item y) ->
        a = b).
Proof.
  split; [exact primaryKey_inj|].
  intros a b x y Ha Hb Hkey.
  assert (Hla : (a < 100)%nat).
  { apply lookup_lt_Some in Ha. pose proof (loopRequests_length LoopPutItem) as Hl.
    unfold loopRequests in Hl. lia. }
  assert (Hlb : (b < 100)%nat).
  { apply lookup_lt_Some in Hb. pose proof (loopRequests_length LoopPutItem) as Hl.
    unfold loopRequests in Hl. lia. }
  rewrite (putItemRequests_rank a Hla) in Ha. injection Ha as <-.
  rewrite (putItemRequests_rank b Hlb) in Hb. injection Hb as <-.
  apply primaryKey_inj in Hkey as [Hq Hr].
  change (a / 10 = b / 10)%nat in Hq. change (a mod 10 = b mod 10)%nat in Hr.
  pose proof (Nat.div_mod_eq a 10). pose proof (Nat.div_mod_eq b 10). lia.
Qed.

Lemma put_item_keys_distinct_witness :
  putItemRequests !! 37%nat = Some (PutItem (putItemInput 3 7))
  /\ primaryKey (pi_Item (putItemInput 3 7))
     = (Some (attrS "key_3"), Some (attrN "7"))
  /\ (3 = 3 /\ 7 = 7)%nat
  /\ 37%nat = 37%nat.
Proof.
  assert (H37 : putItemRequests !! 37%nat = Some (PutItem (putItemInput 3 7)))
    by exact (putItemRequests_rank 37 ltac:(lia)).
  split; [exact H37|]. split; [reflexivity|]. split.
  - exact (proj1 put_item_keys_distinct 3%nat 7%nat 3%nat 7%nat eq_refl).
  - exact (proj2 put_item_keys_distinct 37%nat 37%nat _ _ H37 H37 eq_refl).
Defined.

(** The items of ranks 37 and 73 have different keys. *)
Example keys_37_73 :
  primaryKey (pi_Item (putItemInput 3 7)) <> primaryKey (pi_Item (putItemInput 7 3)).
Proof. intros H. apply primaryKey_inj in H as [H _]. discriminate H. Qed.

Lemma grid_members {A} (f : nat -> nat -> A) a b x :
  x ∈ (i ← seq 0 a; j ← seq 0 b; [f i j])
  <-> exists i j, (i < a)%nat /\ (j < b)%nat /\ x = f i j.
Proof.
  rewrite list_elem_of_bind. split.
  - intros (i & Hx & Hi). apply list_elem_of_bind in Hx as (j & Hx & Hj).
    apply list_elem_of_singleton in Hx. apply elem_of_seq in Hi, Hj.
    exists i, j. repeat split; [lia | lia | exact Hx].
  - intros (i & j & Hi & Hj & ->). exists i. split; [|apply elem_of_seq; lia].
    apply list_elem_of_bind. exists j. split; [|apply elem_of_seq; lia].
    now apply list_elem_of_singleton.
Qed.

(** X13: the reads address the items that put-item writes.  The key of the
    GetItem request for (i, j) is the item that put-item writes for (i, j)
    without its value attribute; the requests of get-item are exactly these
    GetItem requests for i and j in 0..9, as the requests of put-item are
    the PutItem requests for the same pairs; and the query asks for the
    partition key of row 5 of the grid with the sort keys of columns 2 and 9
    as bounds. *)
Theorem reads_address_written_items :
  (forall i j,
     gi_Key (getItemInput i j) = delete "value" (pi_Item (putItemInput i j))
     /\ primaryKey (gi_Key (getItemInput i j))
        = primaryKey (pi_Item (putItemInput i j)))
  /\ (forall r, r ∈ getItemRequests <->
        exists i j, (i < 10)%nat /\ (j < 10)%nat /\ r = GetItem (getItemInput i j))
  /\ (forall r, r ∈ putItemRequests <->
        exists i j, (i < 10)%nat /\ (j < 10)%nat /\ r = PutItem (putItemInput i j))
  /\ (forall i j,
        q_ExpressionAttributeValues queryInput !! ":pkval"
        = pi_Item (putItemInput 5 j) !! "pk"
        /\ q_ExpressionAttributeValues queryInput !! ":skval1"
           = pi_Item (putItemInput i 2) !! "sk"
        /\ q_ExpressionAttributeValues queryInput !! ":skval2"
           = pi_Item (putItemInput i 9) !! "sk").
Proof.
  split; [|split; [|split]].
  - intros i j. split; [|reflexivity].
    apply map_eq. intros k. unfold getItemInput, putItemInput. simpl.
    destruct (decide (k = "value")) as [->|Hv].
    + rewrite lookup_delete_eq. reflexivity.
    + rewrite lookup_delete_ne by congruence.
      destruct (decide (k = "pk")) as [->|Hp]; [reflexivity|].
      destruct (decide (k = "sk")) as [->|Hs]; [reflexivity|].
      rewrite !lookup_insert_ne, lookup_empty by congruence. reflexivity.
  - intros r. unfold getItemRequests. rewrite list_elem_of_bind.
    rewrite <- (grid_members (fun i j => GetItem (getItemInput i j)) 10 10 r).
    split.
    + intros (c & Hr & _). exact Hr.
    + intros Hr. exists O. split; [exact Hr|].
      apply elem_of_seq. unfold iterations. lia.
  - intros r. apply (grid_members (fun i j => PutItem (putItemInput i j)) 10 10 r).
  - intros i j. repeat split.
Qed.

(** ** [contains] and [listOfKeys] *)

(** X14: [contains] decides membership in the slice: it returns true exactly
    when the needle is one of the elements, and false on the empty slice;
    so a service passes the first check of [validate] exactly when it is
    dynamodb or dax, with no trimming and no folding of case. *)
Theorem contains_decides_membership (needle : string) (haystack : list string) :
  (contains needle haystack = true <-> needle ∈ haystack)
  /\ (contains needle haystack = false <-> needle ∉ haystack)
  /\ contains needle [] = false
  /\ (contains needle services = true <-> needle = "dynamodb" \/ needle = "dax")
  /\ contains "DAX" services = false
  /\ contains " dax" services = false.
Proof.
  split; [apply contains_elem_of|]. split; [apply contains_not_elem_of|].
  split; [reflexivity|]. split; [|split; reflexivity].
  rewrite contains_elem_of. apply services_cases.
Qed.

Lemma listOfKeys_fill (order : list string) :
  forall (keys : list string) (i : nat),
    length keys = (i + length order)%nat ->
    fst (foldl (fun (acc : list string * nat) key =>
                  (<[snd acc := key]> (fst acc), S (snd acc)))
               (keys, i) order)
    = take i keys ++ order.
Proof.
  induction order as [|k order IH]; intros keys i Hlen; simpl in *.
  - rewrite app_nil_r. symmetry. apply take_ge. lia.
  - rewrite IH by (rewrite length_insert; lia).
    rewrite (take_S_r _ i k) by (apply list_lookup_insert_eq; lia).
    rewrite take_insert_ge by lia. now rewrite <- app_assoc.
Qed.

(** X15: [listOfKeys] returns the keys of the map in the order in which the
    range loop meets them.  When that order goes through each key of the map
    once (what Go's range does), the result is that very sequence: it has
    [len(m)] elements, none repeated, and a string is in it exactly when it
    is a key of the map.  On the empty map the result is empty. *)
Theorem listOfKeys_is_the_range_order
  (order : list string) (m : gmap string TryDax.Executor) :
  order ≡ₚ (map_to_list m).*1 ->
  TryDax.listOfKeys order m = order
  /\ length (TryDax.listOfKeys order m) = size m
  /\ NoDup (TryDax.listOfKeys order m)
  /\ (forall k, k ∈ TryDax.listOfKeys order m <-> is_Some (m !! k)).
Proof.
  intros Hperm.
  assert (Hlen : length order = size m).
  { rewrite Hperm, length_fmap. apply length_map_to_list. }
  assert (Heq : TryDax.listOfKeys order m = order).
  { unfold TryDax.listOfKeys. rewrite listOfKeys_fill.
    - reflexivity.
    - rewrite length_replicate. lia. }
  rewrite Heq. split; [reflexivity|]. split; [exact Hlen|]. split.
  - rewrite Hperm. apply NoDup_fst_map_to_list.
  - intros k. rewrite Hperm, list_elem_of_fmap. split.
    + intros ([k' x] & -> & Hx). apply elem_of_map_to_list in Hx. simpl. eauto.
    + intros [x Hx]. exists (k, x). split; [reflexivity|].
      now apply elem_of_map_to_list.
Qed.

Lemma listOfKeys_is_the_range_order_witness :
  sampleOrder ≡ₚ (map_to_list TryDax.commandMap).*1
  /\ TryDax.listOfKeys sampleOrder TryDax.commandMap = sampleOrder
  /\ TryDax.listOfKeys [] (∅ : gmap string TryDax.Executor) = [].
Proof.
  assert (Hperm : sampleOrder ≡ₚ (map_to_list TryDax.commandMap).*1).
  { apply NoDup_Permutation.
    - unfold sampleOrder.
      repeat (apply NoDup_cons; split;
              [rewrite ?elem_of_cons, elem_of_nil; intros H;
               intuition discriminate|]).
      apply NoDup_nil_2.
    - apply NoDup_fst_map_to_list.
    - intros k. rewrite list_elem_of_fmap. split.
      + intros Hk.
        assert (Hin : k ∈ Part000.commands).
        { unfold sampleOrder in Hk. unfold Part000.commands.
          rewrite !elem_of_cons, elem_of_nil in *. tauto. }
        apply commandMap_keys in Hin as [x Hx].
        exists (k, x). split; [reflexivity | now apply elem_of_map_to_list].
      + intros ([k' x] & -> & Hx). apply elem_of_map_to_list in Hx. simpl.
        assert (Hin : k' ∈ Part000.commands) by (apply commandMap_keys; eauto).
        unfold sampleOrder. unfold Part000.commands in Hin.
        rewrite !elem_of_cons, elem_of_nil in *. tauto. }
  split; [exact Hperm|]. split.
  - exact (proj1 (listOfKeys_is_the_range_order sampleOrder TryDax.commandMap Hperm)).
  - reflexivity.
Defined.

(** ** The defaults of the flags *)

(** X16: what the defaults of the flags give.  A command line without
    -command is rejected with the invalid-command error as soon as its
    service is valid, since the default command is the empty string.
    Without -service the service is dynamodb, which needs no endpoint: a
    valid -command alone passes the validation of both files.  Service dax
    without -endpoint is rejected with the endpoint error.  Without -region
    the first file uses us-west-2 and try_dax.go the detected region; a
    -region flag overrides both. *)
Theorem flag_defaults
  (order : list string) (args : Args) (detectedRegion : string) :
  (arg_command args = None ->
   default "dynamodb" (arg_service args) ∈ services ->
     Part000.validate (Part000.parseFlags args) = Some Part000.err_command
     /\ TryDax.validate order (TryDax.parseFlags args detectedRegion)
        = Some (TryDax.err_command order))
  /\ (arg_service args = None ->
      default "" (arg_command args) ∈ Part000.commands ->
        Part000.validate (Part000.parseFlags args) = None
        /\ TryDax.validate order (TryDax.parseFlags args detectedRegion) = None)
  /\ (arg_service args = Some "dax" -> arg_endpoint args = None ->
      default "" (arg_command args) ∈ Part000.commands ->
        Part000.validate (Part000.parseFlags args) = Some err_endpoint
        /\ TryDax.validate order (TryDax.parseFlags args detectedRegion)
           = Some err_endpoint)
  /\ region (Part000.parseFlags args) = default "us-west-2" (arg_region args)
  /\ region (TryDax.parseFlags args detectedRegion)
     = default detectedRegion (arg_region args).
Proof.
  split; [|split; [|split; [|split; reflexivity]]].
  - intros Hc Hs. split.
    + apply Part000_reject_command; [exact Hs|].
      simpl. rewrite Hc. simpl. apply contains_not_elem_of. reflexivity.
    + apply TryDax_reject_command; [exact Hs|].
      simpl. rewrite Hc. reflexivity.
  - intros Hs Hc. split.
    + apply Part000_dynamodb; [simpl; now rewrite Hs | exact Hc].
    + apply TryDax_dynamodb; [simpl; now rewrite Hs|].
      apply commandMap_keys. exact Hc.
  - intros Hs He Hc. split.
    + rewrite Part000_dax; [|simpl; now rewrite Hs | exact Hc].
      simpl. rewrite He. reflexivity.
    + rewrite TryDax_dax; [|simpl; now rewrite Hs | apply commandMap_keys; exact Hc].
      simpl. rewrite He. reflexivity.
Qed.

Lemma flag_defaults_witness :
  Part000.validate (Part000.parseFlags noArgs) = Some Part000.err_command
  /\ TryDax.validate sampleOrder (TryDax.parseFlags (onlyCommand "scan") "eu-west-1")
     = None
  /\ Part000.validate (Part000.parseFlags (daxWithoutEndpoint "scan"))
     = Some err_endpoint.
Proof.
  split; [|split].
  - refine (proj1 (proj1 (flag_defaults sampleOrder noArgs "eu-west-1") eq_refl _)).
    apply contains_elem_of. reflexivity.
  - refine (proj2 (proj1 (proj2 (flag_defaults sampleOrder (onlyCommand "scan")
                                   "eu-west-1")) eq_refl _)).
    apply contains_elem_of. reflexivity.
  - refine (proj1 (proj1 (proj2 (proj2 (flag_defaults sampleOrder
                                          (daxWithoutEndpoint "scan") "eu-west-1")))
                     eq_refl eq_refl _)).
    apply contains_elem_of. reflexivity.
Defined.

(** ** The error stream of the first file *)


